(** * wave-maker: the per-frame waveform renderer of [movie-maker.py]

    A shallow embedding of [create_waveform_animation] / [make_frame] and of
    the command [create_waveform_video], with the properties stated by the
    specification proved (or refuted) on the embedding.

    Python values are modelled as the interpreter has them:
    - [float] is IEEE-754 binary64, taken from [SpecFloat] with
      [prec = 53] and [emax = 1024] (round to nearest, ties to even);
    - [int] is [Z]; [//] is [Z.div] (floor), [max]/[min] are [Z.max]/[Z.min];
    - an exception is a value of [exn]; a computation that can raise returns
      a [result];
    - the pyplot figure registry and the console are an explicit [world]
      threaded through a state-and-exception monad [M].

    matplotlib, Pillow, librosa and moviepy are collaborators outside the
    repository: what they compute (pixels, decoded samples, encoded video) is
    a field of the classes [Rendering] and [Media], what they promise
    structurally (a resized image has the requested size, [plt.figure] opens
    a fresh current figure) is written out. *)

From Stdlib Require Import String Ascii ZArith List Bool Lia QArith Strings.Byte.
From Stdlib Require Import Floats.SpecFloat.
Import ListNotations.
Open Scope Z_scope.

(* ===================================================================== *)
(** * Python exceptions and results *)
(* ===================================================================== *)

(** An instance of a subclass of [Exception]: class name and message.
    [BaseException]s outside [Exception] ([KeyboardInterrupt], [SystemExit])
    are asynchronous to the code modelled here and are not represented. *)
Inductive exn : Type :=
| Exception (cls : string) (msg : string).

Definition ValueError : string -> exn := Exception "ValueError".
Definition OverflowError : string -> exn := Exception "OverflowError".

Inductive result (A : Type) : Type :=
| Ok (a : A)
| Raise (e : exn).
Arguments Ok {A} a.
Arguments Raise {A} e.

Definition bindR {A B : Type} (r : result A) (k : A -> result B) : result B :=
  match r with
  | Ok a => k a
  | Raise e => Raise e
  end.

Notation "'let?' x ':=' e 'in' k" := (bindR e (fun x => k))
  (at level 10, x pattern, e at level 100, k at level 200).

Definition raises {A : Type} (r : result A) : bool :=
  match r with Ok _ => false | Raise _ => true end.

(* ===================================================================== *)
(** * Python floats: IEEE-754 binary64 *)
(* ===================================================================== *)

Definition float : Type := spec_float.

Module F64.

Definition prec : Z := 53.
Definition emax : Z := 1024.

Definition mul : float -> float -> float := SFmul prec emax.
Definition add : float -> float -> float := SFadd prec emax.
Definition sub : float -> float -> float := SFsub prec emax.
Definition div : float -> float -> float := SFdiv prec emax.
Definition neg : float -> float := SFopp.
Definition leb : float -> float -> bool := SFleb.
Definition ltb : float -> float -> bool := SFltb.
Definition eqb : float -> float -> bool := SFeqb.

(** The float nearest to an integer (ties to even); an infinity when the
    integer is beyond the largest finite float. *)
Definition of_Z (n : Z) : float := binary_normalize prec emax n 0 false.

Definition is_finite (f : float) : bool :=
  match f with
  | S754_zero _ | S754_finite _ _ _ => true
  | S754_infinity _ | S754_nan => false
  end.

(** Every value a Python float can hold is a canonical binary64. *)
Definition valid (f : float) : bool := valid_binary prec emax f.

(** Literals of the source. *)
Definition zero : float := S754_zero false.                         (* 0.0 *)
Definition one : float := S754_finite false 4503599627370496 (-52). (* 1.0 *)
Definition half : float := S754_finite false 4503599627370496 (-53). (* 0.5 *)
Definition lit_0_8 : float := S754_finite false 7205759403792794 (-53). (* 0.8 *)

(** The rational number a finite float denotes: [(-1)^s * m * 2^e]. *)
Definition signed_mantissa (s : bool) (m : positive) : Z :=
  cond_Zopp s (Zpos m).

Definition to_Q (f : float) : Q :=
  match f with
  | S754_finite s m e =>
      if 0 <=? e then inject_Z (signed_mantissa s m * 2 ^ e)
      else Qmake (signed_mantissa s m) (Z.to_pos (2 ^ (- e)))
  | _ => 0%Q
  end.

End F64.

(** [float(n)] as mixed arithmetic performs it: [OverflowError] when the
    integer does not fit a finite double. *)
Definition float_of_int (n : Z) : result float :=
  let f := F64.of_Z n in
  if F64.is_finite f then Ok f
  else Raise (OverflowError "int too large to convert to float").

(** [int(x)] for a float [x]: truncation toward zero; [int(inf)] raises
    [OverflowError] and [int(nan)] raises [ValueError]. *)
Definition py_int (x : float) : result Z :=
  match x with
  | S754_zero _ => Ok 0
  | S754_finite s m e => Ok (cond_Zopp s (Z.shiftl (Zpos m) e))
  | S754_infinity _ =>
      Raise (OverflowError "cannot convert float infinity to integer")
  | S754_nan => Raise (ValueError "cannot convert float NaN to integer")
  end.

(** [round(x)] for a float [x] with no [ndigits]: the nearest integer, ties
    to the even one.  The source never calls it; the specification does. *)
Definition py_round (x : float) : result Z :=
  match x with
  | S754_zero _ => Ok 0
  | S754_finite s m e =>
      if 0 <=? e then Ok (cond_Zopp s (Zpos m * 2 ^ e))
      else
        let d := 2 ^ (- e) in
        let q := Zpos m / d in
        let r := Zpos m mod d in
        let q' :=
          match 2 * r ?= d with
          | Lt => q
          | Gt => q + 1
          | Eq => if Z.even q then q else q + 1
          end in
        Ok (cond_Zopp s q')
  | S754_infinity _ =>
      Raise (OverflowError "cannot convert float infinity to integer")
  | S754_nan => Raise (ValueError "cannot convert float NaN to integer")
  end.

(** [t * n] for a float [t] and an int [n]: the int is converted first. *)
Definition float_mul_int (t : float) (n : Z) : result float :=
  let? f := float_of_int n in
  Ok (F64.mul t f).

(** [n * x] for an int [n] and a float [x]. *)
Definition int_mul_float (n : Z) (x : float) : result float :=
  let? f := float_of_int n in
  Ok (F64.mul f x).

(* ===================================================================== *)
(** * numpy: one-dimensional sample arrays and the frame array *)
(* ===================================================================== *)

(** A 1-D array.  [librosa.load] yields floating-point samples;
    [np.array([0, 0])] is an integer array. *)
Inductive ndarray1 : Type :=
| FloatArray (xs : list float)
| IntArray (xs : list Z).

Definition np_len (a : ndarray1) : Z :=
  match a with
  | FloatArray xs => Z.of_nat (length xs)
  | IntArray xs => Z.of_nat (length xs)
  end.

(** Index adjustment of a slice bound with step 1: a negative bound counts
    from the end, and every bound is clamped to [0, len]. *)
Definition adjust_index (len i : Z) : Z :=
  if i <? 0 then Z.max 0 (i + len) else Z.min i len.

Definition py_slice {A : Type} (xs : list A) (start stop : Z) : list A :=
  let len := Z.of_nat (length xs) in
  let lo := adjust_index len start in
  let hi := adjust_index len stop in
  firstn (Z.to_nat (hi - lo)) (skipn (Z.to_nat lo) xs).

(** [a[start:stop]] *)
Definition np_slice (a : ndarray1) (start stop : Z) : ndarray1 :=
  match a with
  | FloatArray xs => FloatArray (py_slice xs start stop)
  | IntArray xs => IntArray (py_slice xs start stop)
  end.

(** [-a] *)
Definition np_negative (a : ndarray1) : ndarray1 :=
  match a with
  | FloatArray xs => FloatArray (map F64.neg xs)
  | IntArray xs => IntArray (map Z.opp xs)
  end.

(** [np.array([0, 0])] *)
Definition placeholder : ndarray1 := IntArray [0; 0].

Fixpoint set_last {A : Type} (xs : list A) (v : A) : list A :=
  match xs with
  | [] => []
  | [_] => [v]
  | x :: rest => x :: set_last rest v
  end.

(** [np.linspace(start, stop, num)] with the endpoint included:
    [arange(num) * step + start] with [step = (stop - start) / (num - 1)],
    the last element overwritten with [stop]. *)
Definition np_linspace (start stop : float) (num : Z) : list float :=
  let div := num - 1 in
  let delta := F64.sub stop start in
  let y := map (fun i => F64.of_Z (Z.of_nat i)) (seq 0 (Z.to_nat num)) in
  let y :=
    if 0 <? div then
      let step := F64.div delta (F64.of_Z div) in
      if F64.eqb step F64.zero
      then map (fun v => F64.mul (F64.div v (F64.of_Z div)) delta) y
      else map (fun v => F64.mul v step) y
    else map (fun v => F64.mul v delta) y in
  let y := map (fun v => F64.add v start) y in
  if 1 <? num then set_last y stop else y.

(** An n-dimensional [uint8] array: its shape and its flat buffer. *)
Record ndarray : Type := mk_ndarray {
  shape : list Z;
  data : list byte
}.

Definition shape_size (sh : list Z) : Z := fold_right Z.mul 1 sh.

(** [np.zeros(shape, dtype=np.uint8)] *)
Definition np_zeros (sh : list Z) : result ndarray :=
  if existsb (fun d => d <? 0) sh
  then Raise (ValueError "negative dimensions are not allowed")
  else Ok {| shape := sh; data := repeat x00 (Z.to_nat (shape_size sh)) |}.

Definition zrange (n : Z) : list Z := map Z.of_nat (seq 0 (Z.to_nat n)).

(* ===================================================================== *)
(** * Pillow images *)
(* ===================================================================== *)

(** A decoded image: mode, size [(width, height)] and the bands of the pixel
    at each coordinate. *)
Record image : Type := mk_image {
  im_mode : string;
  im_size : Z * Z;
  getpixel : Z -> Z -> list byte
}.

Definition mode_bands (mode : string) : Z :=
  if (mode =? "RGB")%string then 3
  else if (mode =? "RGBA")%string then 4
  else if (mode =? "LA")%string then 2
  else 1.

(** [np.array(img)]: the array interface of an image has shape
    [(height, width, bands)] ([(height, width)] for a single band) and the
    pixels row by row. *)
Definition np_array_of_image (im : image) : ndarray :=
  let '(w, h) := im_size im in
  let b := mode_bands (im_mode im) in
  {| shape := if b =? 1 then [h; w] else [h; w; b];
     data := flat_map (fun y => flat_map (fun x => getpixel im x y) (zrange w))
                      (zrange h) |}.

(* ===================================================================== *)
(** * pyplot: figures and the calls made on them *)
(* ===================================================================== *)

(** The second curve of [fill_between]: a scalar or an array. *)
Inductive ycurve : Type :=
| YConst (c : Z)
| YArray (a : ndarray1).

Inductive plt_call : Type :=
| Axis (arg : string)
| Patch_set_alpha (alpha : Z)
| Fill_between (x : list float) (y1 : ndarray1) (y2 : ycurve) (color : string)
| Plot (x : list float) (y : ndarray1) (color : string) (linewidth : Z)
| Ylim (bottom top : float).

(** A figure: its creation parameters and the calls applied to it, oldest
    first. *)
Record figure : Type := mk_figure {
  figsize : float * float;
  dpi : Z;
  calls : list plt_call
}.

(** Keyword arguments of [savefig]. *)
Record savefig_args : Type := mk_savefig_args {
  sf_format : string;
  sf_transparent : bool;
  sf_bbox_inches : string;
  sf_pad_inches : Z
}.

(** What a [print] call writes: the pieces of its f-string, before the
    values are rendered as text. *)
Inductive frag : Type :=
| Lit (s : string)
| FStr (s : string)
| FInt (n : Z)
| FFloat (x : float) (spec : string)
| FExn (e : exn).

Inductive written : Type :=
| Print (line : list frag)
| Traceback (e : exn).

(** The state outside the closure: pyplot's registry of open figures by
    number, the current figure first, and what was written to the console,
    oldest first. *)
Record world : Type := mk_world {
  open_figs : list (Z * figure);
  console : list written
}.

(* ===================================================================== *)
(** * The state-and-exception monad *)
(* ===================================================================== *)

Definition M (A : Type) : Type := world -> result A * world.

Definition ret {A : Type} (a : A) : M A := fun w => (Ok a, w).

Definition bind {A B : Type} (m : M A) (k : A -> M B) : M B :=
  fun w =>
    match m w with
    | (Ok a, w') => k a w'
    | (Raise e, w') => (Raise e, w')
    end.

Definition lift {A : Type} (r : result A) : M A := fun w => (r, w).

(** [try: m  except Exception as e: h e] *)
Definition try_except {A : Type} (m : M A) (h : exn -> M A) : M A :=
  fun w =>
    match m w with
    | (Ok a, w') => (Ok a, w')
    | (Raise e, w') => h e w'
    end.

Declare Scope py_scope.
Delimit Scope py_scope with py.
Notation "x <- m ;; k" := (bind m (fun x => k))
  (at level 61, m at next level, right associativity) : py_scope.
Notation "m ;; k" := (bind m (fun _ => k))
  (at level 61, right associativity) : py_scope.
Open Scope py_scope.

Definition print (line : list frag) : M unit :=
  fun w => (Ok tt, {| open_figs := open_figs w;
                      console := console w ++ [Print line] |}).

Definition print_exc (e : exn) : M unit :=
  fun w => (Ok tt, {| open_figs := open_figs w;
                      console := console w ++ [Traceback e] |}).

Definition get_figs : M (list (Z * figure)) := fun w => (Ok (open_figs w), w).

Definition put_figs (fs : list (Z * figure)) : M unit :=
  fun w => (Ok tt, {| open_figs := fs; console := console w |}).

Definition next_num (fs : list (Z * figure)) : Z :=
  1 + fold_right Z.max 0 (map fst fs).

Definition add_call (c : plt_call) (fg : figure) : figure :=
  {| figsize := figsize fg; dpi := dpi fg; calls := calls fg ++ [c] |}.

Fixpoint find_fig (num : Z) (fs : list (Z * figure)) : option figure :=
  match fs with
  | [] => None
  | (n, fg) :: rest => if n =? num then Some fg else find_fig num rest
  end.

Definition update_fig (num : Z) (f : figure -> figure)
  (fs : list (Z * figure)) : list (Z * figure) :=
  map (fun p => if fst p =? num then (fst p, f (snd p)) else p) fs.

Definition remove_fig (num : Z) (fs : list (Z * figure)) : list (Z * figure) :=
  filter (fun p => negb (fst p =? num)) fs.

(** The y-limits a figure is displayed with: those of the last [ylim] call;
    [None] leaves matplotlib's autoscaling in charge. *)
Definition ylim_of (fg : figure) : option (float * float) :=
  fold_left (fun acc c => match c with Ylim lo hi => Some (lo, hi) | _ => acc end)
            (calls fg) None.

(** matplotlib's defaults for a figure opened implicitly. *)
Definition rc_figsize : float * float :=
  (F64.div (F64.of_Z 64) (F64.of_Z 10), F64.div (F64.of_Z 48) (F64.of_Z 10)).
Definition rc_dpi : Z := 100.

(* ===================================================================== *)
(** * [create_waveform_animation]: the closure [make_frame] *)
(* ===================================================================== *)

(** ** Collaborators: matplotlib and Pillow *)

Class Rendering : Type := {
  (** matplotlib rejecting the parameters of [plt.figure]. *)
  mpl_figure_check : float * float -> Z -> option exn;
  (** matplotlib rejecting a call on a figure (an invalid colour, say). *)
  mpl_call_check : figure -> plt_call -> option exn;
  (** Rasterising a figure with the Agg backend and encoding it as PNG. *)
  mpl_savefig : figure -> savefig_args -> result (list byte);
  (** [Image.open] on the PNG buffer. *)
  pil_open : list byte -> result image;
  (** The LANCZOS resampling filter: the bands of the pixel at [(x, y)] of
      the image resampled to the given size. *)
  lanczos : image -> Z * Z -> Z -> Z -> list byte;
  (** Pillow's conversion of one pixel of a given mode to RGB. *)
  pil_rgb : string -> list byte -> byte * byte * byte
}.

Section WaveformAnimation.

Context {R : Rendering}.

(** ** pyplot and Pillow operations *)

(** [plt.figure(figsize=..., dpi=...)]: a new figure under the next free
    number, which becomes the current one. *)
Definition plt_figure (size : float * float) (d : Z) : M Z :=
  match mpl_figure_check size d with
  | Some e => lift (Raise e)
  | None =>
      fs <- get_figs ;;
      let num := next_num fs in
      put_figs ((num, mk_figure size d []) :: fs) ;;
      ret num
  end.

(** [plt.gcf()]: the current figure, opened with the defaults when there
    is none. *)
Definition gcf : M (Z * figure) :=
  fs <- get_figs ;;
  match fs with
  | p :: _ => ret p
  | [] =>
      num <- plt_figure rc_figsize rc_dpi ;;
      ret (num, mk_figure rc_figsize rc_dpi [])
  end.

(** A method call on the figure object [num]. *)
Definition fig_call (num : Z) (c : plt_call) : M unit :=
  fs <- get_figs ;;
  match find_fig num fs with
  | None => ret tt
  | Some fg =>
      match mpl_call_check fg c with
      | Some e => lift (Raise e)
      | None => put_figs (update_fig num (add_call c) fs)
      end
  end.

(** A pyplot function: it acts on the current figure. *)
Definition plt_do (c : plt_call) : M unit :=
  p <- gcf ;;
  fig_call (fst p) c.

(** [plt.savefig(buf, ...)] followed by [buf.seek(0)]: the bytes of the
    current figure. *)
Definition plt_savefig (args : savefig_args) : M (list byte) :=
  p <- gcf ;;
  fs <- get_figs ;;
  match find_fig (fst p) fs with
  | Some fg => lift (mpl_savefig fg args)
  | None => lift (mpl_savefig (snd p) args)
  end.

(** [plt.close(fig)] *)
Definition plt_close (num : Z) : M unit :=
  fs <- get_figs ;;
  put_figs (remove_fig num fs).

(** [img.resize(size, Image.LANCZOS)]: a copy when the size is already the
    requested one, [ValueError] for an empty target, otherwise a new image
    of the requested size filled by the filter. *)
Definition pil_resize (im : image) (size : Z * Z) : result image :=
  let '(w, h) := size in
  if (w =? fst (im_size im)) && (h =? snd (im_size im)) then Ok im
  else if (w <? 1) || (h <? 1)
  then Raise (ValueError "height and width must be > 0")
  else Ok {| im_mode := im_mode im; im_size := size;
             getpixel := lanczos im size |}.

(** [img.convert('RGB')] *)
Definition pil_convert_RGB (im : image) : image :=
  {| im_mode := "RGB";
     im_size := im_size im;
     getpixel := fun x y =>
       let '(r, g, b) := pil_rgb (im_mode im) (getpixel im x y) in
       [r; g; b] |}.

(** ** Captured variables of the closure *)

Variable audio_data : ndarray1.
Variable sample_rate : Z.
Variable waveform_type : string.
Variable resolution : Z.
Variable waveform_color : string.

(** ** The Audio Windower (lines 46-61 of [make_frame]) *)

(** [center_idx = int(t * sample_rate)] *)
Definition center_idx (t : float) : result Z :=
  let? p := float_mul_int t sample_rate in
  py_int p.

(** [window_size = int(sample_rate * 0.5)] *)
Definition window_size : result Z :=
  let? p := int_mul_float sample_rate F64.half in
  py_int p.

(** [(start_idx, end_idx)] *)
Definition window_bounds (t : float) : result (Z * Z) :=
  let? center_idx := center_idx t in
  let? window_size := window_size in
  let start_idx := Z.max 0 (center_idx - window_size / 2) in
  let end_idx := Z.min (np_len audio_data) (start_idx + window_size) in
  Ok (start_idx, end_idx).

Definition audio_window (t : float) : result ndarray1 :=
  let? bounds := window_bounds t in
  let '(start_idx, end_idx) := bounds in
  let audio_segment :=
    if end_idx <=? start_idx then placeholder
    else np_slice audio_data start_idx end_idx in
  let audio_segment :=
    if np_len audio_segment <? 2 then placeholder else audio_segment in
  Ok audio_segment.

(** ** The Frame Rasterizer (lines 63-106) *)

Definition ylim_top : float := F64.lit_0_8.
Definition ylim_bottom : float := F64.neg F64.lit_0_8.

(** Lines 64-87: open the figure and plot the segment in the chosen
    style. *)
Definition draw_waveform (audio_segment : ndarray1) : M Z :=
  fig <- plt_figure (F64.of_Z 8, F64.of_Z 8) (resolution / 8) ;;
  plt_do (Axis "off") ;;
  fig_call fig (Patch_set_alpha 0) ;;
  let x := np_linspace (F64.of_Z 0) (F64.of_Z 1) (np_len audio_segment) in
  (if (waveform_type =? "simple")%string then
     plt_do (Fill_between x audio_segment (YConst 0) waveform_color) ;;
     plt_do (Ylim ylim_bottom ylim_top)
   else if (waveform_type =? "mirror")%string then
     plt_do (Fill_between x audio_segment
               (YArray (np_negative audio_segment)) waveform_color) ;;
     plt_do (Ylim ylim_bottom ylim_top)
   else if (waveform_type =? "line")%string then
     plt_do (Plot x audio_segment waveform_color 4) ;;
     plt_do (Ylim ylim_bottom ylim_top)
   else ret tt) ;;
  ret fig.

Definition png_args : savefig_args :=
  {| sf_format := "png"; sf_transparent := true;
     sf_bbox_inches := "tight"; sf_pad_inches := 0 |}.

(** Lines 91-106: save, reopen with Pillow, resize, convert, close. *)
Definition figure_to_rgb (fig : Z) : M ndarray :=
  buf <- plt_savefig png_args ;;
  pil_img <- lift (pil_open buf) ;;
  pil_img <- lift (pil_resize pil_img (resolution, resolution)) ;;
  let rgb_img := np_array_of_image (pil_convert_RGB pil_img) in
  plt_close fig ;;
  ret rgb_img.

(** The body of the [try]. *)
Definition render_frame (t : float) : M ndarray :=
  audio_segment <- lift (audio_window t) ;;
  fig <- draw_waveform audio_segment ;;
  figure_to_rgb fig.

(** The [except] clause. *)
Definition blank_frame (t : float) (e : exn) : M ndarray :=
  print [Lit "Error in make_frame at t="; FFloat t EmptyString; Lit ": "; FExn e] ;;
  lift (np_zeros [resolution; resolution; 3]).

Definition make_frame (t : float) : M ndarray :=
  try_except (render_frame t) (blank_frame t).

End WaveformAnimation.

(* ===================================================================== *)
(** * The command [create_waveform_video] *)
(* ===================================================================== *)

(** ** Collaborators: librosa, moviepy and the clock

    Each library call is an action on the world: it may write to the
    console, leave figures behind (moviepy calls [make_frame]) and raise. *)
Class Media : Type := {
  AudioClip : Type;
  VideoClip : Type;
  (** [librosa.load(path, sr=None)] *)
  librosa_load : string -> M (ndarray1 * Z);
  (** [AudioFileClip(path)] and its [duration] attribute *)
  AudioFileClip : string -> M AudioClip;
  clip_duration : AudioClip -> float;
  (** [ImageClip(path)], [.set_duration(d)], [.resize(width=w, height=h)] *)
  ImageClip : string -> M VideoClip;
  set_duration : VideoClip -> float -> M VideoClip;
  clip_resize : VideoClip -> Z -> Z -> M VideoClip;
  (** [VideoClip(make_frame, duration=d)], [.set_fps(fps)] *)
  VideoClip_of : (float -> M ndarray) -> float -> M VideoClip;
  set_fps : VideoClip -> Z -> M VideoClip;
  (** [.set_opacity(op)], [.set_position(pos)], [.set_audio(clip)] *)
  set_opacity : VideoClip -> float -> M VideoClip;
  set_position : VideoClip -> string -> M VideoClip;
  set_audio : VideoClip -> AudioClip -> M VideoClip;
  (** [CompositeVideoClip(clips, size=size)] *)
  CompositeVideoClip : list VideoClip -> Z * Z -> M VideoClip;
  (** [.write_videofile(path, fps=, codec=, audio_codec=, threads=)] *)
  write_videofile : VideoClip -> string -> Z -> string -> string -> Z -> M unit;
  (** The wall clock, read off the world. *)
  clock : world -> float
}.

(** [time.time()] *)
Definition time_time {Md : Media} : M float := fun w => (Ok (clock w), w).

(** [int(s)] for a string of decimal digits, the only form [click.Choice]
    lets through; anything else is a [ValueError]. *)
Definition digit_of_ascii (c : ascii) : option Z :=
  let n := Z.of_nat (nat_of_ascii c) in
  if (48 <=? n) && (n <=? 57) then Some (n - 48) else None.

Fixpoint parse_digits (s : string) (acc : Z) : option Z :=
  match s with
  | EmptyString => Some acc
  | String c rest =>
      match digit_of_ascii c with
      | Some d => parse_digits rest (10 * acc + d)
      | None => None
      end
  end.

Definition int_of_str (s : string) : result Z :=
  match s with
  | EmptyString => Raise (ValueError "invalid literal for int() with base 10")
  | _ =>
      match parse_digits s 0 with
      | Some n => Ok n
      | None => Raise (ValueError "invalid literal for int() with base 10")
      end
  end.

Section Command.

Context {R : Rendering} {Md : Media}.

Definition get_audio_data (audio_file : string) : M (ndarray1 * Z) :=
  print [Lit "Loading audio with librosa..."] ;;
  loaded <- librosa_load audio_file ;;
  print [Lit "Audio loaded: "; FInt (np_len (fst loaded)); Lit " samples, ";
         FInt (snd loaded); Lit "Hz sample rate"] ;;
  ret loaded.

Definition create_waveform_animation (audio_data : ndarray1)
  (sample_rate : Z) (duration : float) (waveform_type : string)
  (resolution : Z) (waveform_color : string) : M VideoClip :=
  let fps := 30 in
  clip <- VideoClip_of
            (make_frame audio_data sample_rate waveform_type resolution
                        waveform_color)
            duration ;;
  set_fps clip fps.

(** The body of the [try], up to the final [return True]. *)
Definition render_video (audio_file image_file waveform resolution
  waveform_color output : string) (start_time : float) : M bool :=
  resolution <- lift (int_of_str resolution) ;;
  loaded <- get_audio_data audio_file ;;
  let '(audio_data, sample_rate) := loaded in
  audio_clip <- AudioFileClip audio_file ;;
  let duration := clip_duration audio_clip in
  print [Lit "Audio duration: "; FFloat duration ".2f"; Lit " seconds"] ;;
  image_clip <- ImageClip image_file ;;
  image_clip <- set_duration image_clip duration ;;
  image_clip <- clip_resize image_clip resolution resolution ;;
  print [Lit "Image prepared"] ;;
  print [Lit "Generating waveform animation..."] ;;
  waveform_clip <- create_waveform_animation audio_data sample_rate duration
                     waveform resolution waveform_color ;;
  print [Lit "Waveform animation created"] ;;
  waveform_clip <- set_opacity waveform_clip F64.lit_0_8 ;;
  centered <- set_position waveform_clip "center" ;;
  final_clip <- CompositeVideoClip [image_clip; centered]
                  (resolution, resolution) ;;
  final_clip <- set_audio final_clip audio_clip ;;
  print [Lit "Video composition complete"] ;;
  print [Lit "Writing output to "; FStr output; Lit "..."] ;;
  write_videofile final_clip output 30 "libx264" "aac" 4 ;;
  print [Lit "Video successfully created at "; FStr output] ;;
  end_time <- time_time ;;
  let elapsed_time := F64.sub end_time start_time in
  print [Lit "Total processing time: "; FFloat elapsed_time ".2f";
         Lit " seconds"] ;;
  ret true.

(** The [except Exception as e] clause of the command. *)
Definition report_failure (e : exn) : M bool :=
  print [Lit "Error creating video: "; FExn e] ;;
  print_exc e ;;
  ret false.

(** Lines 130-135, as written to the console. *)
Definition banner (audio_file image_file waveform resolution
  waveform_color output : string) : list written :=
  [Print [Lit "Processing audio: "; FStr audio_file];
   Print [Lit "Processing image: "; FStr image_file];
   Print [Lit "Waveform type: "; FStr waveform];
   Print [Lit "Waveform color: "; FStr waveform_color];
   Print [Lit "Resolution: "; FStr resolution; Lit "x"; FStr resolution];
   Print [Lit "Output will be saved to: "; FStr output]].

Definition create_waveform_video (audio_file image_file waveform resolution
  waveform_color output : string) : M bool :=
  print [Lit "Processing audio: "; FStr audio_file] ;;
  print [Lit "Processing image: "; FStr image_file] ;;
  print [Lit "Waveform type: "; FStr waveform] ;;
  print [Lit "Waveform color: "; FStr waveform_color] ;;
  print [Lit "Resolution: "; FStr resolution; Lit "x"; FStr resolution] ;;
  print [Lit "Output will be saved to: "; FStr output] ;;
  start_time <- time_time ;;
  try_except
    (render_video audio_file image_file waveform resolution waveform_color
                  output start_time)
    report_failure.

(** ** Running the script (lines 116 and 199)

    [create_waveform_video] is decorated with [click.command()], and the
    script calls the resulting command object.  That runs click's [main] in
    standalone mode: once the arguments are parsed and validated it invokes
    the function above, discards the value the function returns and ends
    the process with status 0 ([ctx.exit()]); an exception that escapes the
    function ends the process with status 1. *)
Definition exit_status (r : result bool) : Z :=
  match r with
  | Ok _ => 0
  | Raise _ => 1
  end.

Definition click_main (audio_file image_file waveform resolution
  waveform_color output : string) (w : world) : Z * world :=
  let '(r, w') :=
    create_waveform_video audio_file image_file waveform resolution
      waveform_color output w in
  (exit_status r, w').

End Command.

(* ===================================================================== *)
(** * Vocabulary of the statements *)
(* ===================================================================== *)

(** [c] is [q] truncated toward zero. *)
Definition is_trunc (c : Z) (q : Q) : Prop :=
  ((0 <= q)%Q -> (inject_Z c <= q)%Q /\ (q < inject_Z c + 1)%Q) /\
  ((q <= 0)%Q -> (inject_Z c - 1 < q)%Q /\ (q <= inject_Z c)%Q).

(** The centre index as the specification words it:
    [round(t * sample_rate)]. *)
Definition center_idx_spec (sample_rate : Z) (t : float) : result Z :=
  let? p := float_mul_int t sample_rate in
  py_round p.

(** Durations are taken to be canonical floats of at most [2^63] seconds and
    sample rates positive integers below [2^53]: the products formed by the
    windower then stay finite. *)
Definition max_duration : float := S754_finite false 4503599627370496 11.

Definition duration_ok (duration : float) : bool :=
  F64.valid duration && F64.leb duration max_duration.

Definition sample_rate_ok (sample_rate : Z) : Prop :=
  0 < sample_rate < 2 ^ 53.

(** [t] lies in [[0, duration]]. *)
Definition in_range (t duration : float) : bool :=
  F64.valid t && F64.leb F64.zero t && F64.leb t duration.

(** [t] is negative, no further from zero than [max_duration]. *)
Definition before_start (t : float) : bool :=
  F64.valid t && F64.ltb t F64.zero && F64.leb (F64.neg t) max_duration.

(** One element of a sample array. *)
Inductive sample : Type :=
| SFloat (x : float)
| SInt (n : Z).

Definition np_get (a : ndarray1) (i : Z) : option sample :=
  if i <? 0 then None else
  match a with
  | FloatArray xs => option_map SFloat (nth_error xs (Z.to_nat i))
  | IntArray xs => option_map SInt (nth_error xs (Z.to_nat i))
  end.

(** [-x] on one element. *)
Definition neg_sample (v : sample) : sample :=
  match v with
  | SFloat x => SFloat (F64.neg x)
  | SInt n => SInt (- n)
  end.

(** Every figure number in the registry is below [n]. *)
Definition fresh (n : Z) (fs : list (Z * figure)) : Prop :=
  Forall (fun p => fst p < n) fs.

(** ** What a frame depends on

    The figure [draw_waveform] builds and the pixels [figure_to_rgb] derives
    from it, written without the world: the calls of a style in order, each
    checked by matplotlib against the figure as it stands. *)
Section PureFrame.

Context {R : Rendering}.
Variable audio_data : ndarray1.
Variable sample_rate : Z.
Variable waveform_type : string.
Variable resolution : Z.
Variable waveform_color : string.

Definition style_calls (audio_segment : ndarray1) : list plt_call :=
  let x := np_linspace (F64.of_Z 0) (F64.of_Z 1) (np_len audio_segment) in
  if (waveform_type =? "simple")%string then
    [Fill_between x audio_segment (YConst 0) waveform_color;
     Ylim ylim_bottom ylim_top]
  else if (waveform_type =? "mirror")%string then
    [Fill_between x audio_segment (YArray (np_negative audio_segment))
       waveform_color;
     Ylim ylim_bottom ylim_top]
  else if (waveform_type =? "line")%string then
    [Plot x audio_segment waveform_color 4; Ylim ylim_bottom ylim_top]
  else [].

Fixpoint apply_calls (fg : figure) (cs : list plt_call) : result figure :=
  match cs with
  | [] => Ok fg
  | c :: rest =>
      match mpl_call_check fg c with
      | Some e => Raise e
      | None => apply_calls (add_call c fg) rest
      end
  end.

Definition drawn_figure (audio_segment : ndarray1) : result figure :=
  match mpl_figure_check (F64.of_Z 8, F64.of_Z 8) (resolution / 8) with
  | Some e => Raise e
  | None =>
      apply_calls (mk_figure (F64.of_Z 8, F64.of_Z 8) (resolution / 8) [])
        (Axis "off" :: Patch_set_alpha 0 :: style_calls audio_segment)
  end.

Definition rgb_of_figure (fg : figure) : result ndarray :=
  let? buf := mpl_savefig fg png_args in
  let? pil_img := pil_open buf in
  let? pil_img := pil_resize pil_img (resolution, resolution) in
  Ok (np_array_of_image (pil_convert_RGB pil_img)).

Definition rendered (t : float) : result ndarray :=
  let? audio_segment := audio_window audio_data sample_rate t in
  let? fg := drawn_figure audio_segment in
  rgb_of_figure fg.

End PureFrame.

(* ===================================================================== *)
(** * Concrete collaborators and inputs for the examples *)
(* ===================================================================== *)

Module Demo.

(** A renderer that accepts positive resolutions, rejects the colour
    ["notacolor"] and paints every pixel opaque black. *)
Definition rendering : Rendering :=
  {| mpl_figure_check := fun _ d =>
       if d <=? 0 then Some (ValueError "dpi must be positive") else None;
     mpl_call_check := fun _ c =>
       match c with
       | Fill_between _ _ _ color | Plot _ _ color _ =>
           if (color =? "notacolor")%string
           then Some (ValueError "Invalid RGBA argument")
           else None
       | _ => None
       end;
     mpl_savefig := fun _ _ => Ok [x89; x50; x4e; x47];
     pil_open := fun _ =>
       Ok {| im_mode := "RGBA"; im_size := (4, 4);
             getpixel := fun _ _ => [x00; x00; x00; xff] |};
     lanczos := fun im _ _ _ => getpixel im 0 0;
     pil_rgb := fun _ px =>
       match px with
       | r :: g :: b :: _ => (r, g, b)
       | _ => (x00, x00, x00)
       end |}.

(** Eight samples [1.0 .. 8.0]. *)
Definition ramp : ndarray1 := FloatArray (map F64.of_Z [1; 2; 3; 4; 5; 6; 7; 8]).

Definition t_0_375 : float := S754_finite false 6755399441055744 (-54).
Definition t_1 : float := F64.one.
Definition t_minus_1 : float := F64.neg F64.one.
Definition t_100 : float := F64.of_Z 100.
Definition t_nan : float := S754_nan.
Definition two_seconds : float := F64.of_Z 2.

Definition empty_world : world := {| open_figs := []; console := [] |}.

(** Media collaborators that succeed without touching the world. *)
Definition media : Media :=
  {| AudioClip := float;
     VideoClip := unit;
     librosa_load := fun _ => ret (ramp, 4);
     AudioFileClip := fun _ => ret two_seconds;
     clip_duration := fun d => d;
     ImageClip := fun _ => ret tt;
     set_duration := fun _ _ => ret tt;
     clip_resize := fun _ _ _ => ret tt;
     VideoClip_of := fun _ _ => ret tt;
     set_fps := fun _ _ => ret tt;
     set_opacity := fun _ _ => ret tt;
     set_position := fun _ _ => ret tt;
     set_audio := fun _ _ => ret tt;
     CompositeVideoClip := fun _ _ => ret tt;
     write_videofile := fun _ _ _ _ _ _ => ret tt;
     clock := fun w => F64.of_Z (1000 + Z.of_nat (length (console w))) |}.

(** The same, with an audio file librosa cannot decode. *)
Definition media_no_audio : Media :=
  {| AudioClip := float;
     VideoClip := unit;
     librosa_load := fun _ => lift (Raise (Exception "NoBackendError" "no backend"));
     AudioFileClip := fun _ => ret two_seconds;
     clip_duration := fun d => d;
     ImageClip := fun _ => ret tt;
     set_duration := fun _ _ => ret tt;
     clip_resize := fun _ _ _ => ret tt;
     VideoClip_of := fun _ _ => ret tt;
     set_fps := fun _ _ => ret tt;
     set_opacity := fun _ _ => ret tt;
     set_position := fun _ _ => ret tt;
     set_audio := fun _ _ => ret tt;
     CompositeVideoClip := fun _ _ => ret tt;
     write_videofile := fun _ _ _ _ _ _ => ret tt;
     clock := fun w => F64.of_Z (1000 + Z.of_nat (length (console w))) |}.

End Demo.

(** The world after [make_frame] has been called for each timestamp of a
    list in turn, the frames themselves set aside. *)
Definition after_frames {R : Rendering} (audio_data : ndarray1)
  (sample_rate : Z) (waveform_type : string) (resolution : Z)
  (waveform_color : string) (ts : list float) (w : world) : world :=
  fold_left
    (fun w0 t =>
       snd (make_frame audio_data sample_rate waveform_type resolution
              waveform_color t w0))
    ts w.

(** Further inputs: a quarter of a second, a one-sample signal. *)
Definition t_0_25 : float := S754_finite false 4503599627370496 (-54).
Definition one_sample : ndarray1 := FloatArray [F64.one].

(* ===================================================================== *)
(** * Facts about binary64 rounding *)
(* ===================================================================== *)

(** The literals are the correctly rounded quotients they stand for. *)
Example literals_rounded :
  F64.half = F64.div (F64.of_Z 1) (F64.of_Z 2) /\
  F64.one = F64.of_Z 1 /\
  F64.lit_0_8 = F64.div (F64.of_Z 8) (F64.of_Z 10) /\
  Demo.t_0_375 = F64.div (F64.of_Z 3) (F64.of_Z 8) /\
  F64.valid max_duration = true.
Proof. repeat split; reflexivity. Qed.

Lemma digits2_pos_size (p : positive) : digits2_pos p = Pos.size p.
Proof. induction p; simpl; congruence. Qed.

Lemma digits2_log2 (p : positive) :
  Zpos (digits2_pos p) = Z.log2 (Zpos p) + 1.
Proof.
  rewrite digits2_pos_size.
  destruct p; simpl; try reflexivity; rewrite Pos2Z.inj_succ; lia.
Qed.

Lemma digits2_bounds (p : positive) :
  2 ^ (Zpos (digits2_pos p) - 1) <= Zpos p < 2 ^ Zpos (digits2_pos p).
Proof.
  rewrite digits2_log2.
  replace (Z.log2 (Zpos p) + 1 - 1) with (Z.log2 (Zpos p)) by lia.
  replace (Z.log2 (Zpos p) + 1) with (Z.succ (Z.log2 (Zpos p))) by lia.
  apply Z.log2_spec. lia.
Qed.

Lemma shr_1_div2 (mrs : shr_record) :
  0 <= shr_m mrs -> shr_m (shr_1 mrs) = shr_m mrs / 2.
Proof.
  destruct mrs as [m r s]; simpl. intros Hm.
  destruct m as [|p|p]; try lia.
  - reflexivity.
  - destruct p; simpl shr_m.
    + rewrite Pos2Z.inj_xI. apply Z.div_unique with (r := 1); lia.
    + rewrite Pos2Z.inj_xO. apply Z.div_unique with (r := 0); lia.
    + reflexivity.
Qed.

Lemma iter_pos_shr_1 (n : positive) :
  forall mrs, 0 <= shr_m mrs ->
  shr_m (iter_pos shr_1 n mrs) = shr_m mrs / 2 ^ Zpos n.
Proof.
  induction n as [n IH|n IH|]; intros mrs Hm; simpl iter_pos.
  - assert (Hpow : 0 < 2 ^ Zpos n) by (apply Z.pow_pos_nonneg; lia).
    assert (H1 : 0 <= shr_m (shr_1 mrs)).
    { rewrite shr_1_div2 by assumption. apply Z.div_pos; lia. }
    assert (H2 : 0 <= shr_m (iter_pos shr_1 n (shr_1 mrs))).
    { rewrite IH by assumption. apply Z.div_pos; lia. }
    rewrite IH by assumption. rewrite IH by assumption.
    rewrite shr_1_div2 by assumption.
    rewrite !Z.div_div by lia.
    f_equal. replace (Zpos n~1) with (1 + Zpos n + Zpos n) by lia.
    rewrite !Z.pow_add_r by lia. rewrite Z.pow_1_r. ring.
  - assert (Hpow : 0 < 2 ^ Zpos n) by (apply Z.pow_pos_nonneg; lia).
    assert (H2 : 0 <= shr_m (iter_pos shr_1 n mrs)).
    { rewrite IH by assumption. apply Z.div_pos; lia. }
    rewrite IH by assumption. rewrite IH by assumption.
    rewrite Z.div_div by lia.
    f_equal. replace (Zpos n~0) with (Zpos n + Zpos n) by lia.
    rewrite Z.pow_add_r by lia. reflexivity.
  - rewrite shr_1_div2 by assumption. reflexivity.
Qed.

Lemma fexp_eq (k : Z) : fexp 53 1024 k = Z.max (k - 53) (-1074).
Proof. reflexivity. Qed.

Lemma shr_spec (mrs : shr_record) (e n : Z) :
  0 <= shr_m mrs ->
  shr_m (fst (shr mrs e n)) = shr_m mrs / 2 ^ Z.max 0 n /\
  snd (shr mrs e n) = e + Z.max 0 n.
Proof.
  intros Hm. destruct n as [|p|p]; simpl shr; simpl fst; simpl snd.
  - rewrite Z.max_l by lia. rewrite Z.pow_0_r, Z.div_1_r. lia.
  - rewrite Z.max_r by lia. split; [apply iter_pos_shr_1; assumption | reflexivity].
  - rewrite Z.max_l by lia. rewrite Z.pow_0_r, Z.div_1_r. lia.
Qed.

Lemma shr_record_of_loc_m (m : Z) (l : location) :
  shr_m (shr_record_of_loc m l) = m.
Proof. destruct l as [|[]]; reflexivity. Qed.

Lemma round_nearest_even_bounds (m : Z) (l : location) :
  m <= round_nearest_even m l <= m + 1.
Proof.
  destruct l as [|[]]; simpl; try lia. destruct (Z.even m); lia.
Qed.

Lemma Zdigits2_nonneg (z : Z) : 0 <= Zdigits2 z.
Proof. destruct z; simpl; lia. Qed.

Lemma Zdigits2_le (z k : Z) : 0 <= k -> 0 <= z <= 2 ^ k -> Zdigits2 z <= k + 1.
Proof.
  intros Hk [H0 Hz]. destruct z as [|p|p]; simpl; try lia.
  rewrite digits2_log2.
  assert (Z.log2 (Zpos p) <= Z.log2 (2 ^ k)) by (apply Z.log2_le_mono; assumption).
  rewrite Z.log2_pow2 in H by assumption. lia.
Qed.

(** Rounding a positive mantissa that carries at least the canonical number
    of digits yields a finite float as long as its magnitude stays below
    [2^1023]. *)
Lemma round_aux_finite (s : bool) (m : positive) (e : Z) :
  e <= fexp 53 1024 (Zpos (digits2_pos m) + e) ->
  Zpos (digits2_pos m) + e <= 1023 ->
  F64.is_finite (binary_round_aux 53 1024 s (Zpos m) e loc_Exact) = true.
Proof.
  intros Hcan Hmag.
  unfold binary_round_aux, shr_fexp.
  set (d := Zdigits2 (Zpos m)).
  assert (Hd : d = Zpos (digits2_pos m)) by reflexivity.
  set (n := fexp 53 1024 (d + e) - e).
  assert (Hn : 0 <= n) by (unfold n; rewrite Hd; lia).
  pose proof (shr_spec (shr_record_of_loc (Zpos m) loc_Exact) e n) as Hs1.
  simpl shr_record_of_loc in *. simpl shr_m in Hs1 at 1 3.
  destruct (shr {| shr_m := Zpos m; shr_r := false; shr_s := false |} e n)
    as [mrs' e'] eqn:E1.
  simpl fst in Hs1; simpl snd in Hs1.
  destruct Hs1 as [Hm' He']; [lia|].
  rewrite Z.max_r in Hm', He' by assumption.
  assert (Hpown : 0 < 2 ^ n) by (apply Z.pow_pos_nonneg; lia).
  assert (Hm'0 : 0 <= shr_m mrs') by (rewrite Hm'; apply Z.div_pos; lia).
  assert (He'eq : e' = fexp 53 1024 (d + e)) by (unfold n in He'; lia).
  pose proof (digits2_bounds m) as [_ Hub]. rewrite <- Hd in Hub.
  assert (Hm'ub : shr_m mrs' < 2 ^ 53).
  { rewrite Hm'. destruct (Z_le_gt_dec d 53) as [Hle|Hgt].
    - assert (Zpos m / 2 ^ n <= Zpos m).
      { apply Z.div_le_upper_bound; [lia|]. nia. }
      assert (2 ^ d <= 2 ^ 53) by (apply Z.pow_le_mono_r; lia). lia.
    - assert (Hnd : d - 53 <= n).
      { unfold n. rewrite fexp_eq. lia. }
      assert (2 ^ (d - 53) <= 2 ^ n) by (apply Z.pow_le_mono_r; lia).
      assert (0 < 2 ^ (d - 53)) by (apply Z.pow_pos_nonneg; lia).
      assert (Zpos m / 2 ^ n <= Zpos m / 2 ^ (d - 53)).
      { apply Z.div_le_compat_l; lia. }
      assert (Zpos m / 2 ^ (d - 53) < 2 ^ 53).
      { apply Z.div_lt_upper_bound; [lia|].
        rewrite <- Z.pow_add_r by lia. replace (d - 53 + 53) with d by lia. lia. }
      lia. }
  set (m1 := round_nearest_even (shr_m mrs') (loc_of_shr_record mrs')).
  pose proof (round_nearest_even_bounds (shr_m mrs') (loc_of_shr_record mrs')) as Hm1.
  fold m1 in Hm1.
  pose proof (shr_spec {| shr_m := m1; shr_r := false; shr_s := false |} e'
                (fexp 53 1024 (Zdigits2 m1 + e') - e')) as Hs2.
  simpl shr_m in Hs2 at 1 3.
  destruct (shr {| shr_m := m1; shr_r := false; shr_s := false |} e'
                (fexp 53 1024 (Zdigits2 m1 + e') - e')) as [mrs'' e''] eqn:E2.
  simpl fst in Hs2; simpl snd in Hs2.
  destruct Hs2 as [Hm'' He'']; [lia|].
  assert (Hd1 : Zdigits2 m1 <= 54) by (apply (Zdigits2_le m1 53); lia).
  assert (He''ub : e'' <= 971).
  { rewrite He''. rewrite He'eq. rewrite !fexp_eq. rewrite fexp_eq in He'eq. lia. }
  destruct (shr_m mrs'') as [|p|p] eqn:Em''.
  - reflexivity.
  - apply Z.leb_le in He''ub. 
    change (Z.sub 1024 53) with 971. rewrite He''ub. reflexivity.
  - exfalso.
    assert (0 <= m1 / 2 ^ Z.max 0 (fexp 53 1024 (Zdigits2 m1 + e') - e')).
    { apply Z.div_pos; [lia|]. apply Z.pow_pos_nonneg; lia. }
    lia.
Qed.

(** A canonical mantissa within range is left as it is by rounding. *)
Lemma round_aux_canonical (s : bool) (m : positive) (e : Z) :
  bounded 53 1024 m e = true ->
  binary_round_aux 53 1024 s (Zpos m) e loc_Exact = S754_finite s m e.
Proof.
  unfold bounded, canonical_mantissa. intros H.
  apply andb_true_iff in H. destruct H as [Hc He].
  apply Z.eqb_eq in Hc.
  unfold binary_round_aux, shr_fexp. simpl Zdigits2. simpl shr_record_of_loc.
  rewrite Hc, Z.sub_diag. simpl shr. cbv beta iota zeta.
  simpl shr_m. simpl loc_of_shr_record. simpl round_nearest_even.
  simpl Zdigits2. rewrite Hc, Z.sub_diag. simpl shr. cbv beta iota zeta.
  simpl shr_m. rewrite He. reflexivity.
Qed.

Lemma iter_xO_spec (p : positive) (k : positive) :
  Zpos (Pos.iter xO p k) = Zpos p * 2 ^ Zpos k /\
  Zpos (digits2_pos (Pos.iter xO p k)) = Zpos (digits2_pos p) + Zpos k.
Proof.
  induction k as [|k IH] using Pos.peano_ind.
  - simpl. split; [lia|]. rewrite Pos2Z.inj_succ. lia.
  - rewrite Pos.iter_succ. destruct IH as [IH1 IH2].
    rewrite Pos2Z.inj_xO, IH1. simpl digits2_pos.
    rewrite !Pos2Z.inj_succ, IH2. unfold Z.succ.
    rewrite Z.pow_add_r by lia. rewrite Z.pow_1_r. lia.
Qed.

(** The float of a positive integer below [2^53] is that integer exactly,
    with its mantissa shifted up to 53 digits. *)
Lemma of_Z_shape (p : positive) :
  Zpos (digits2_pos p) <= 53 ->
  exists m : positive,
    F64.of_Z (Zpos p) = S754_finite false m (Zpos (digits2_pos p) - 53) /\
    Zpos (digits2_pos m) = 53 /\
    Zpos m = Zpos p * 2 ^ (53 - Zpos (digits2_pos p)).
Proof.
  intros Hd. unfold F64.of_Z, F64.prec, F64.emax, binary_normalize, binary_round.
  rewrite Z.add_0_r. rewrite fexp_eq. rewrite Z.max_l by lia.
  unfold shl_align. rewrite Z.sub_0_r.
  destruct (Zpos (digits2_pos p) - 53) as [|q|q] eqn:Eq; try lia.
  - exists p. split; [|split].
    + apply round_aux_canonical. unfold bounded, canonical_mantissa.
      rewrite Z.add_0_r, fexp_eq. apply andb_true_iff. split.
      * apply Z.eqb_eq. lia.
      * reflexivity.
    + lia.
    + replace (53 - Zpos (digits2_pos p)) with 0 by lia. lia.
  - destruct (iter_xO_spec p q) as [Hv Hdg].
    exists (Pos.iter xO p q). split; [|split].
    + apply round_aux_canonical. unfold bounded, canonical_mantissa.
      rewrite fexp_eq. apply andb_true_iff. split.
      * apply Z.eqb_eq. lia.
      * apply Z.leb_le. change (1024 - 53) with 971. lia.
    + lia.
    + rewrite Hv. f_equal. f_equal. lia.
Qed.

Lemma digits2_mul (p q : positive) :
  Zpos (digits2_pos p) + Zpos (digits2_pos q) - 1
    <= Zpos (digits2_pos (p * q))
    <= Zpos (digits2_pos p) + Zpos (digits2_pos q).
Proof.
  rewrite !digits2_log2. rewrite Pos2Z.inj_mul.
  pose proof (Z.log2_mul_below (Zpos p) (Zpos q)).
  pose proof (Z.log2_mul_above (Zpos p) (Zpos q)).
  lia.
Qed.

Lemma digits2_le_mono (p q : positive) :
  (p <= q)%positive -> Zpos (digits2_pos p) <= Zpos (digits2_pos q).
Proof.
  intros H. rewrite !digits2_log2.
  assert (Z.log2 (Zpos p) <= Z.log2 (Zpos q)) by (apply Z.log2_le_mono; lia).
  lia.
Qed.

(** The product of a finite float and a normal float below the overflow
    threshold is finite. *)
Lemma mul_finite (x : float) (sy : bool) (my : positive) (ey : Z) :
  F64.is_finite x = true ->
  Zpos (digits2_pos my) = 53 ->
  (forall sx mx ex, x = S754_finite sx mx ex ->
     Zpos (digits2_pos mx) + ex + 53 + ey <= 1023) ->
  F64.is_finite (F64.mul x (S754_finite sy my ey)) = true.
Proof.
  intros Hfin Hdy Hmag. destruct x as [sx|sx| |sx mx ex]; try discriminate.
  - reflexivity.
  - specialize (Hmag sx mx ex eq_refl).
    unfold F64.mul, F64.prec, F64.emax, SFmul.
    pose proof (digits2_mul mx my) as Hd.
    pose proof (Pos2Z.is_pos (digits2_pos mx)).
    apply round_aux_finite.
    + rewrite fexp_eq. lia.
    + lia.
Qed.

Lemma mul_finite_l (sx : bool) (mx : positive) (ex : Z) (y : float) :
  F64.is_finite y = true ->
  Zpos (digits2_pos mx) = 53 ->
  (forall sy my ey, y = S754_finite sy my ey ->
     Zpos (digits2_pos my) + ey + 53 + ex <= 1023) ->
  F64.is_finite (F64.mul (S754_finite sx mx ex) y) = true.
Proof.
  intros Hfin Hdx Hmag. destruct y as [sy|sy| |sy my ey]; try discriminate.
  - reflexivity.
  - specialize (Hmag sy my ey eq_refl).
    unfold F64.mul, F64.prec, F64.emax, SFmul.
    pose proof (digits2_mul mx my) as Hd.
    pose proof (Pos2Z.is_pos (digits2_pos my)).
    apply round_aux_finite.
    + rewrite fexp_eq. lia.
    + lia.
Qed.

(** Among canonical positive floats the order bounds the magnitude. *)
Lemma leb_magnitude (mx my : positive) (ex ey : Z) :
  F64.valid (S754_finite false mx ex) = true ->
  F64.valid (S754_finite false my ey) = true ->
  F64.leb (S754_finite false mx ex) (S754_finite false my ey) = true ->
  Zpos (digits2_pos mx) + ex <= Zpos (digits2_pos my) + ey.
Proof.
  unfold F64.valid, valid_binary, bounded, canonical_mantissa, F64.prec, F64.emax.
  intros Hx Hy Hle.
  apply andb_true_iff in Hx. destruct Hx as [Hx _]. apply Z.eqb_eq in Hx.
  apply andb_true_iff in Hy. destruct Hy as [Hy _]. apply Z.eqb_eq in Hy.
  rewrite fexp_eq in Hx, Hy.
  unfold F64.leb, SFleb, SFcompare in Hle.
  destruct (Z.compare_spec ex ey) as [Heq|Hlt|Hgt].
  - subst ey.
    assert (mx <= my)%positive.
    { unfold Pos.le. rewrite Pos.compare_cont_spec in Hle. simpl in Hle.
      destruct (mx ?= my)%positive; simpl in Hle; congruence. }
    pose proof (digits2_le_mono mx my H). lia.
  - lia.
  - discriminate.
Qed.

Lemma shr_1_even (k : Z) :
  0 <= k ->
  shr_1 {| shr_m := 2 * k; shr_r := false; shr_s := false |} =
  {| shr_m := k; shr_r := false; shr_s := false |}.
Proof. intros Hk. destruct k as [|p|p]; try lia; reflexivity. Qed.

Lemma iter_pos_shr_1_exact (n : positive) :
  forall k, 0 <= k ->
  iter_pos shr_1 n {| shr_m := k * 2 ^ Zpos n; shr_r := false; shr_s := false |} =
  {| shr_m := k; shr_r := false; shr_s := false |}.
Proof.
  induction n as [n IH|n IH|]; intros k Hk; cbn [iter_pos].
  - assert (Hpow : 0 < 2 ^ Zpos n) by (apply Z.pow_pos_nonneg; lia).
    replace (k * 2 ^ Zpos n~1) with (2 * ((k * 2 ^ Zpos n) * 2 ^ Zpos n)).
    + rewrite shr_1_even by nia. rewrite IH by nia. apply IH. assumption.
    + replace (Zpos n~1) with (1 + Zpos n + Zpos n) by lia.
      rewrite !Z.pow_add_r by lia. rewrite Z.pow_1_r. ring.
  - assert (Hpow : 0 < 2 ^ Zpos n) by (apply Z.pow_pos_nonneg; lia).
    replace (k * 2 ^ Zpos n~0) with ((k * 2 ^ Zpos n) * 2 ^ Zpos n).
    + rewrite IH by nia. apply IH. assumption.
    + replace (Zpos n~0) with (Zpos n + Zpos n) by lia.
      rewrite Z.pow_add_r by lia. ring.
  - replace (k * 2 ^ 1) with (2 * k) by (rewrite Z.pow_1_r; ring).
    apply shr_1_even. assumption.
Qed.

(** Halving a normal float away from the subnormal range is exact. *)
Lemma mul_half_exact (s : bool) (m : positive) (e : Z) :
  Zpos (digits2_pos m) = 53 ->
  -1000 <= e <= 900 ->
  F64.mul (S754_finite s m e) F64.half = S754_finite s m (e - 1).
Proof.
  intros Hd He.
  unfold F64.mul, F64.half, F64.prec, F64.emax, SFmul.
  rewrite xorb_false_r.
  assert (Hval : Zpos (m * 4503599627370496) = Zpos m * 2 ^ 52).
  { rewrite Pos2Z.inj_mul. reflexivity. }
  assert (Hdig : Zpos (digits2_pos (m * 4503599627370496)) = 105).
  { rewrite digits2_log2, Hval. rewrite Z.log2_mul_pow2 by lia.
    rewrite digits2_log2 in Hd. lia. }
  unfold binary_round_aux, shr_fexp.
  simpl Zdigits2. rewrite Hdig. rewrite fexp_eq.
  replace (Z.max (105 + (e + -53) - 53) (-1074) - (e + -53)) with 52 by lia.
  simpl shr_record_of_loc. unfold shr at 1. rewrite Hval.
  rewrite (iter_pos_shr_1_exact 52 (Zpos m)) by lia.
  cbv beta iota zeta. simpl shr_m. simpl loc_of_shr_record.
  simpl round_nearest_even. simpl Zdigits2. rewrite Hd. rewrite fexp_eq.
  replace (Z.max (53 + (e + -53 + 52) - 53) (-1074) - (e + -53 + 52)) with 0 by lia.
  simpl shr. cbv beta iota zeta. simpl shr_m.
  replace (e + -53 + 52) with (e - 1) by lia.
  assert (Hle : (e - 1 <=? 1024 - 53) = true) by (apply Z.leb_le; lia).
  rewrite Hle. reflexivity.
Qed.

(* ===================================================================== *)
(** * Facts about [int(x)], the sample rate and the timestamp *)
(* ===================================================================== *)

Lemma digits2_le_53 (p : positive) : Zpos p < 2 ^ 53 -> Zpos (digits2_pos p) <= 53.
Proof.
  intros H. rewrite digits2_log2.
  assert (Z.log2 (Zpos p) < 53) by (apply Z.log2_lt_pow2; lia). lia.
Qed.

Lemma float_of_int_shape (sample_rate : Z) :
  sample_rate_ok sample_rate ->
  exists m : positive,
    float_of_int sample_rate =
      Ok (S754_finite false m (Zdigits2 sample_rate - 53)) /\
    Zpos (digits2_pos m) = 53 /\
    Zpos m = sample_rate * 2 ^ (53 - Zdigits2 sample_rate) /\
    1 <= Zdigits2 sample_rate <= 53.
Proof.
  intros [Hpos Hlt]. destruct sample_rate as [|p|p]; try lia.
  pose proof (digits2_le_53 p Hlt) as Hd.
  destruct (of_Z_shape p Hd) as [m [Hof [Hdm Hv]]].
  exists m. unfold float_of_int. rewrite Hof. simpl.
  repeat split; try assumption; lia.
Qed.

Lemma window_size_exact (sample_rate : Z) :
  sample_rate_ok sample_rate ->
  window_size sample_rate = Ok (sample_rate / 2).
Proof.
  intros Hsr. destruct (float_of_int_shape sample_rate Hsr) as [m [Hf [Hd [Hv Hdg]]]].
  unfold window_size, int_mul_float. rewrite Hf. cbn [bindR].
  rewrite mul_half_exact by (try assumption; lia).
  simpl py_int. f_equal.
  set (d := Zdigits2 sample_rate) in *.
  rewrite <- Z.shiftr_opp_r. rewrite Z.shiftr_div_pow2 by lia.
  rewrite Hv.
  replace (- (d - 53 - 1)) with ((53 - d) + 1) by lia.
  rewrite Z.pow_add_r by lia. rewrite Z.pow_1_r.
  assert (0 < 2 ^ (53 - d)) by (apply Z.pow_pos_nonneg; lia).
  rewrite (Z.mul_comm (2 ^ (53 - d)) 2). rewrite Z.div_mul_cancel_r by lia. reflexivity.
Qed.

Lemma round_aux_sign (s : bool) (m e : Z) (l : location) (s' : bool)
  (m' : positive) (e' : Z) :
  binary_round_aux 53 1024 s m e l = S754_finite s' m' e' -> s' = s.
Proof.
  unfold binary_round_aux.
  destruct (shr_fexp 53 1024 m e l) as [mrs1 e1].
  destruct (shr_fexp 53 1024 _ e1 loc_Exact) as [mrs2 e2].
  destruct (shr_m mrs2); try discriminate.
  destruct (e2 <=? 1024 - 53); try discriminate.
  intros H. inversion H. reflexivity.
Qed.

Lemma mul_sign (x y : float) (s : bool) (m : positive) (e : Z) :
  F64.mul x y = S754_finite s m e ->
  exists sx mx ex sy my ey,
    x = S754_finite sx mx ex /\ y = S754_finite sy my ey /\ s = xorb sx sy.
Proof.
  unfold F64.mul, SFmul.
  destruct x as [sx|sx| |sx mx ex]; destruct y as [sy|sy| |sy my ey];
    try discriminate.
  intros H. apply round_aux_sign in H.
  exists sx, mx, ex, sy, my, ey. auto.
Qed.

Lemma py_int_trunc (s : bool) (m : positive) (e : Z) :
  is_trunc (cond_Zopp s (Z.shiftl (Zpos m) e)) (F64.to_Q (S754_finite s m e)).
Proof.
  unfold is_trunc, F64.to_Q, F64.signed_mantissa.
  destruct (Z.leb_spec 0 e) as [He|He].
  - rewrite Z.shiftl_mul_pow2 by assumption.
    assert (Hc : cond_Zopp s (Zpos m * 2 ^ e) = cond_Zopp s (Zpos m) * 2 ^ e).
    { unfold cond_Zopp. destruct s; ring. }
    rewrite Hc. set (c := cond_Zopp s (Zpos m) * 2 ^ e).
    unfold Qle, Qlt, Qplus, Qminus, Qopp, inject_Z; simpl. lia.
  - rewrite <- Z.shiftr_opp_r. rewrite Z.shiftr_div_pow2 by lia.
    set (d := 2 ^ (- e)).
    assert (Hd : 0 < d) by (apply Z.pow_pos_nonneg; lia).
    pose proof (Z.div_mod (Zpos m) d ltac:(lia)) as Hdm.
    pose proof (Z.mod_pos_bound (Zpos m) d Hd) as Hmod.
    set (k := Zpos m / d) in *.
    unfold Qle, Qlt, Qplus, Qminus, Qopp, inject_Z; simpl.
    rewrite Z2Pos.id by assumption.
    destruct s; simpl; split; intros Hq; split; nia.
Qed.

Lemma py_int_finite (x : float) :
  F64.is_finite x = true ->
  exists c, py_int x = Ok c /\ is_trunc c (F64.to_Q x).
Proof.
  destruct x as [s|s| |s m e]; try discriminate; intros _.
  - exists 0. split; [reflexivity|].
    unfold is_trunc, F64.to_Q, Qle, Qlt; simpl. lia.
  - eexists. split; [reflexivity|]. apply py_int_trunc.
Qed.

Lemma py_int_raises (x : float) :
  F64.is_finite x = false -> raises (py_int x) = true.
Proof. destruct x; try discriminate; reflexivity. Qed.

Lemma max_duration_magnitude (m : positive) (e : Z) :
  F64.valid (S754_finite false m e) = true ->
  F64.leb (S754_finite false m e) max_duration = true ->
  Zpos (digits2_pos m) + e <= 64.
Proof.
  intros Hv Hle.
  assert (Hmax : F64.valid max_duration = true) by reflexivity.
  pose proof (leb_magnitude m 4503599627370496 e 11 Hv Hmax Hle) as H.
  change (Zpos (digits2_pos 4503599627370496)) with 53 in H. lia.
Qed.

(** A timestamp in [[0, duration]] is a zero or a positive float of
    magnitude at most [2^64]. *)
Lemma in_range_shape (t duration : float) :
  duration_ok duration = true ->
  in_range t duration = true ->
  (exists s, t = S754_zero s) \/
  (exists m e, t = S754_finite false m e /\ Zpos (digits2_pos m) + e <= 64).
Proof.
  unfold duration_ok, in_range. intros Hd Ht.
  apply andb_true_iff in Hd. destruct Hd as [Hdv Hdle].
  apply andb_true_iff in Ht. destruct Ht as [Ht Htd].
  apply andb_true_iff in Ht. destruct Ht as [Htv Ht0].
  destruct t as [s|s| |s m e]; try discriminate.
  - left. exists s. reflexivity.
  - destruct s; try discriminate.
    destruct duration as [sd|sd| |sd md ed]; try discriminate.
    destruct sd; discriminate.
  - destruct s; try discriminate.
    right. exists m, e. split; [reflexivity|].
    destruct duration as [sd|sd| |sd md ed]; try discriminate.
    + destruct sd; discriminate.
    + destruct sd; try discriminate.
      pose proof (leb_magnitude m md e ed Htv Hdv Htd).
      pose proof (max_duration_magnitude md ed Hdv Hdle). lia.
Qed.

Lemma before_start_shape (t : float) :
  before_start t = true ->
  exists m e, t = S754_finite true m e /\ Zpos (digits2_pos m) + e <= 64.
Proof.
  unfold before_start. intros Ht.
  apply andb_true_iff in Ht. destruct Ht as [Ht Hle].
  apply andb_true_iff in Ht. destruct Ht as [Htv Hneg].
  destruct t as [s|s| |s m e]; try discriminate.
  - destruct s; discriminate.
  - destruct s; try discriminate.
    exists m, e. split; [reflexivity|].
    apply max_duration_magnitude; assumption.
Qed.

Lemma center_idx_bounded (sample_rate : Z) (s : bool) (m : positive) (e : Z) :
  sample_rate_ok sample_rate ->
  Zpos (digits2_pos m) + e <= 64 ->
  exists c, center_idx sample_rate (S754_finite s m e) = Ok c /\
            (s = false -> 0 <= c) /\ (s = true -> c <= 0).
Proof.
  intros Hsr Hmag.
  destruct (float_of_int_shape sample_rate Hsr) as [my [Hf [Hd [Hv Hdg]]]].
  unfold center_idx, float_mul_int. rewrite Hf. cbn [bindR].
  set (p := F64.mul (S754_finite s m e) (S754_finite false my (Zdigits2 sample_rate - 53))).
  assert (Hfin : F64.is_finite p = true).
  { apply mul_finite; [reflexivity|assumption|].
    intros sx mx ex Hx. inversion Hx; subst. lia. }
  destruct p as [sp|sp| |sp mp ep] eqn:Ep; try discriminate.
  - exists 0. simpl. repeat split; lia.
  - exists (cond_Zopp sp (Z.shiftl (Zpos mp) ep)). split; [reflexivity|].
    destruct (mul_sign _ _ _ _ _ Ep) as [sx [mx [ex [sy [my' [ey [Hx [Hy Hs]]]]]]]].
    inversion Hx; inversion Hy; subst.
    assert (Hnn : 0 <= Z.shiftl (Zpos mp) ep) by (apply Z.shiftl_nonneg; lia).
    split; intros Hsx; subst sx; simpl; lia.
Qed.

Lemma center_idx_zero (sample_rate : Z) (s : bool) :
  sample_rate_ok sample_rate ->
  center_idx sample_rate (S754_zero s) = Ok 0.
Proof.
  intros Hsr.
  destruct (float_of_int_shape sample_rate Hsr) as [my [Hf _]].
  unfold center_idx, float_mul_int. rewrite Hf. reflexivity.
Qed.

Lemma center_idx_in_range (sample_rate : Z) (t duration : float) :
  sample_rate_ok sample_rate ->
  duration_ok duration = true ->
  in_range t duration = true ->
  exists c, center_idx sample_rate t = Ok c /\ 0 <= c.
Proof.
  intros Hsr Hd Ht.
  destruct (in_range_shape t duration Hd Ht) as [[s Hz]|[m [e [Hf Hmag]]]]; subst t.
  - exists 0. split; [apply center_idx_zero; assumption | lia].
  - destruct (center_idx_bounded sample_rate false m e Hsr Hmag) as [c [Hc [Hpos _]]].
    exists c. split; [assumption | auto].
Qed.

Lemma center_idx_before_start (sample_rate : Z) (t : float) :
  sample_rate_ok sample_rate ->
  before_start t = true ->
  exists c, center_idx sample_rate t = Ok c /\ c <= 0.
Proof.
  intros Hsr Ht.
  destruct (before_start_shape t Ht) as [m [e [Hf Hmag]]]; subst t.
  destruct (center_idx_bounded sample_rate true m e Hsr Hmag) as [c [Hc [_ Hneg]]].
  exists c. split; [assumption | auto].
Qed.

(* ===================================================================== *)
(** * Facts about slices and the window *)
(* ===================================================================== *)

Lemma py_slice_in_bounds {A : Type} (xs : list A) (lo hi : Z) :
  0 <= lo <= hi -> hi <= Z.of_nat (length xs) ->
  py_slice xs lo hi = firstn (Z.to_nat (hi - lo)) (skipn (Z.to_nat lo) xs).
Proof.
  intros H1 H2. unfold py_slice, adjust_index.
  destruct (Z.ltb_spec lo 0); [lia|]. destruct (Z.ltb_spec hi 0); [lia|].
  rewrite !Z.min_l by lia. reflexivity.
Qed.

Lemma py_slice_length {A : Type} (xs : list A) (lo hi : Z) :
  0 <= lo <= hi -> hi <= Z.of_nat (length xs) ->
  Z.of_nat (length (py_slice xs lo hi)) = hi - lo.
Proof.
  intros H1 H2. rewrite py_slice_in_bounds by assumption.
  rewrite length_firstn, length_skipn. lia.
Qed.

Lemma py_slice_nth {A : Type} (xs : list A) (lo hi i : Z) :
  0 <= lo <= hi -> hi <= Z.of_nat (length xs) -> 0 <= i < hi - lo ->
  nth_error (py_slice xs lo hi) (Z.to_nat i) = nth_error xs (Z.to_nat (lo + i)).
Proof.
  intros H1 H2 Hi. rewrite py_slice_in_bounds by assumption.
  rewrite nth_error_firstn.
  destruct (Nat.ltb_spec (Z.to_nat i) (Z.to_nat (hi - lo))); [|lia].
  rewrite nth_error_skipn. f_equal. lia.
Qed.

Lemma np_slice_len (a : ndarray1) (lo hi : Z) :
  0 <= lo <= hi -> hi <= np_len a -> np_len (np_slice a lo hi) = hi - lo.
Proof.
  destruct a; simpl; intros; apply py_slice_length; assumption.
Qed.

Lemma np_slice_get (a : ndarray1) (lo hi i : Z) :
  0 <= lo <= hi -> hi <= np_len a -> 0 <= i < hi - lo ->
  np_get (np_slice a lo hi) i = np_get a (lo + i).
Proof.
  intros H1 H2 Hi. unfold np_get.
  destruct (Z.ltb_spec i 0); [lia|]. destruct (Z.ltb_spec (lo + i) 0); [lia|].
  destruct a; simpl in *; rewrite py_slice_nth by assumption; reflexivity.
Qed.

Lemma np_get_in_bounds (a : ndarray1) (i : Z) :
  0 <= i < np_len a -> np_get a i <> None.
Proof.
  intros Hi. unfold np_get. destruct (Z.ltb_spec i 0); [lia|].
  destruct a as [xs|xs]; simpl in *;
    destruct (nth_error xs (Z.to_nat i)) eqn:E; try discriminate;
    apply nth_error_None in E; lia.
Qed.

Lemma window_bounds_inv (audio_data : ndarray1) (sample_rate : Z) (t : float)
  (start_idx end_idx : Z) :
  window_bounds audio_data sample_rate t = Ok (start_idx, end_idx) ->
  exists c ws,
    center_idx sample_rate t = Ok c /\ window_size sample_rate = Ok ws /\
    start_idx = Z.max 0 (c - ws / 2) /\
    end_idx = Z.min (np_len audio_data) (start_idx + ws).
Proof.
  unfold window_bounds.
  destruct (center_idx sample_rate t) as [c|e]; [|discriminate].
  destruct (window_size sample_rate) as [ws|e]; [|discriminate].
  cbn [bindR]. intros H. inversion H; subst.
  exists c, ws. auto.
Qed.

Lemma window_bounds_eq (audio_data : ndarray1) (sample_rate : Z) (t : float)
  (c ws : Z) :
  center_idx sample_rate t = Ok c -> window_size sample_rate = Ok ws ->
  window_bounds audio_data sample_rate t =
    Ok (Z.max 0 (c - ws / 2),
        Z.min (np_len audio_data) (Z.max 0 (c - ws / 2) + ws)).
Proof.
  intros Hc Hw. unfold window_bounds. rewrite Hc, Hw. reflexivity.
Qed.

Lemma audio_window_eq (audio_data : ndarray1) (sample_rate : Z) (t : float)
  (start_idx end_idx : Z) :
  window_bounds audio_data sample_rate t = Ok (start_idx, end_idx) ->
  audio_window audio_data sample_rate t =
    Ok (if end_idx - start_idx <? 2 then placeholder
        else np_slice audio_data start_idx end_idx).
Proof.
  intros Hb. destruct (window_bounds_inv _ _ _ _ _ Hb) as [c [ws [_ [_ [Hs He]]]]].
  unfold audio_window. rewrite Hb. cbn [bindR]. f_equal.
  destruct (Z.leb_spec end_idx start_idx) as [Hle|Hgt].
  - simpl. destruct (Z.ltb_spec (end_idx - start_idx) 2); [reflexivity|lia].
  - rewrite np_slice_len by lia.
    destruct (Z.ltb_spec (end_idx - start_idx) 2); reflexivity.
Qed.

(* ===================================================================== *)
(** * Facts about the monad, the figure registry and [render_frame] *)
(* ===================================================================== *)

Lemma bind_assoc {A B C : Type} (m : M A) (f : A -> M B) (g : B -> M C)
  (w : world) :
  bind (bind m f) g w = bind m (fun x => bind (f x) g) w.
Proof.
  unfold bind. destruct (m w) as [[a|e] w1]; reflexivity.
Qed.

Lemma bind_lift {A B : Type} (r : result A) (k : A -> M B) (w : world) :
  bind (lift r) k w =
  match r with Ok a => k a w | Raise e => (Raise e, w) end.
Proof. reflexivity. Qed.

Lemma bind_ok {A B : Type} (m : M A) (k : A -> M B) (w w' : world) (b : B) :
  bind m k w = (Ok b, w') ->
  exists a w1, m w = (Ok a, w1) /\ k a w1 = (Ok b, w').
Proof.
  unfold bind. destruct (m w) as [[a|e] w1]; [|discriminate].
  intros H. exists a, w1. auto.
Qed.

Lemma fold_max_ge (fs : list (Z * figure)) :
  Forall (fun p => fst p <= fold_right Z.max 0 (map fst fs)) fs.
Proof.
  induction fs as [|p fs IH]; constructor; cbn [map fold_right].
  - lia.
  - eapply Forall_impl; [|exact IH]. cbn beta. intros q Hq. lia.
Qed.

Lemma next_num_fresh (fs : list (Z * figure)) : fresh (next_num fs) fs.
Proof.
  unfold fresh, next_num. eapply Forall_impl; [|apply fold_max_ge].
  cbn beta. intros p Hp. lia.
Qed.

Lemma update_fig_fresh (n : Z) (f : figure -> figure) (fs : list (Z * figure)) :
  fresh n fs -> update_fig n f fs = fs.
Proof.
  unfold fresh, update_fig. induction 1 as [|p fs Hp _ IH]; simpl.
  - reflexivity.
  - destruct (Z.eqb_spec (fst p) n); [lia|]. f_equal. exact IH.
Qed.

Lemma remove_fig_fresh (n : Z) (fs : list (Z * figure)) :
  fresh n fs -> remove_fig n fs = fs.
Proof.
  unfold fresh, remove_fig. induction 1 as [|p fs Hp _ IH]; simpl.
  - reflexivity.
  - destruct (Z.eqb_spec (fst p) n); [lia|]. simpl. f_equal. exact IH.
Qed.

Section RenderFacts.

Context {R : Rendering}.

Lemma bind_plt_figure {B : Type} (size : float * float) (d : Z)
  (k : Z -> M B) (w : world) :
  bind (plt_figure size d) k w =
  match mpl_figure_check size d with
  | Some e => (Raise e, w)
  | None =>
      k (next_num (open_figs w))
        {| open_figs := (next_num (open_figs w), mk_figure size d [])
                        :: open_figs w;
           console := console w |}
  end.
Proof.
  unfold plt_figure. destruct (mpl_figure_check size d); reflexivity.
Qed.

Lemma bind_fig_call {B : Type} (n : Z) (c : plt_call) (k : unit -> M B)
  (fg : figure) (fs : list (Z * figure)) (con : list written) :
  fresh n fs ->
  bind (fig_call n c) k {| open_figs := (n, fg) :: fs; console := con |} =
  match mpl_call_check fg c with
  | Some e => (Raise e, {| open_figs := (n, fg) :: fs; console := con |})
  | None => k tt {| open_figs := (n, add_call c fg) :: fs; console := con |}
  end.
Proof.
  intros Hf. unfold fig_call, bind, get_figs, put_figs, lift, ret.
  cbn [open_figs console find_fig]. rewrite Z.eqb_refl.
  destruct (mpl_call_check fg c); [reflexivity|].
  cbn [update_fig map fst snd]. rewrite Z.eqb_refl.
  fold (update_fig n (add_call c) fs). rewrite update_fig_fresh by assumption.
  reflexivity.
Qed.

Lemma bind_plt_do {B : Type} (n : Z) (c : plt_call) (k : unit -> M B)
  (fg : figure) (fs : list (Z * figure)) (con : list written) :
  fresh n fs ->
  bind (plt_do c) k {| open_figs := (n, fg) :: fs; console := con |} =
  match mpl_call_check fg c with
  | Some e => (Raise e, {| open_figs := (n, fg) :: fs; console := con |})
  | None => k tt {| open_figs := (n, add_call c fg) :: fs; console := con |}
  end.
Proof.
  intros Hf. unfold plt_do. rewrite bind_assoc.
  unfold gcf at 1. unfold bind at 1, get_figs at 1. cbn [open_figs].
  unfold bind at 1, ret at 1. cbn [fst].
  apply bind_fig_call. assumption.
Qed.

Lemma plt_savefig_head (args : savefig_args) (n : Z) (fg : figure)
  (fs : list (Z * figure)) (con : list written) :
  plt_savefig args {| open_figs := (n, fg) :: fs; console := con |} =
  (mpl_savefig fg args, {| open_figs := (n, fg) :: fs; console := con |}).
Proof.
  unfold plt_savefig, bind, gcf, get_figs, ret, lift.
  cbn [open_figs console find_fig fst snd bind]. rewrite Z.eqb_refl. reflexivity.
Qed.

Lemma plt_close_head (n : Z) (fg : figure) (fs : list (Z * figure))
  (con : list written) :
  fresh n fs ->
  plt_close n {| open_figs := (n, fg) :: fs; console := con |} =
  (Ok tt, {| open_figs := fs; console := con |}).
Proof.
  intros Hf. unfold plt_close, bind, get_figs, put_figs.
  cbn [open_figs console remove_fig filter fst]. rewrite Z.eqb_refl.
  cbn [negb]. fold (remove_fig n fs). rewrite remove_fig_fresh by assumption.
  reflexivity.
Qed.

(** Running the calls of a style on the figure just opened builds
    exactly [apply_calls]' figure, or stops at its first rejection. *)
Lemma run_two_calls {B : Type} (c1 c2 : plt_call) (k : unit -> M B) (n : Z)
  (fg : figure) (fs : list (Z * figure)) (con : list written) :
  fresh n fs ->
  bind (bind (plt_do c1) (fun _ => plt_do c2)) k
    {| open_figs := (n, fg) :: fs; console := con |} =
  match apply_calls fg [c1; c2] with
  | Ok fg' => k tt {| open_figs := (n, fg') :: fs; console := con |}
  | Raise e =>
      (Raise e,
       {| open_figs :=
            (n, match mpl_call_check fg c1 with
                | Some _ => fg
                | None => add_call c1 fg
                end) :: fs;
          console := con |})
  end.
Proof.
  intros Hf. rewrite bind_assoc. rewrite bind_plt_do by assumption.
  cbn [apply_calls].
  destruct (mpl_call_check fg c1); [reflexivity|].
  rewrite bind_plt_do by assumption.
  destruct (mpl_call_check (add_call c1 fg) c2); reflexivity.
Qed.

Lemma draw_waveform_run (waveform_type : string) (resolution : Z)
  (waveform_color : string) (seg : ndarray1) (w : world) :
  match drawn_figure waveform_type resolution waveform_color seg with
  | Ok fg =>
      (draw_waveform waveform_type resolution waveform_color seg w =
       (Ok (next_num (open_figs w)),
        {| open_figs := (next_num (open_figs w), fg) :: open_figs w;
           console := console w |}))
  | Raise e =>
      exists w',
        draw_waveform waveform_type resolution waveform_color seg w =
          (Raise e, w') /\
        console w' = console w
  end.
Proof.
  pose proof (next_num_fresh (open_figs w)) as Hf.
  unfold draw_waveform, drawn_figure. rewrite bind_plt_figure.
  destruct (mpl_figure_check (F64.of_Z 8, F64.of_Z 8) (resolution / 8)).
  { eexists. split; reflexivity. }
  rewrite bind_plt_do by assumption. cbn [apply_calls].
  destruct (mpl_call_check _ (Axis "off")).
  { eexists. split; reflexivity. }
  rewrite bind_fig_call by assumption.
  destruct (mpl_call_check _ (Patch_set_alpha 0)).
  { eexists. split; reflexivity. }
  unfold style_calls.
  destruct (waveform_type =? "simple")%string;
    [|destruct (waveform_type =? "mirror")%string;
      [|destruct (waveform_type =? "line")%string]].
  1-3: rewrite run_two_calls by assumption;
       match goal with
       | |- context [apply_calls ?f ?cs] => destruct (apply_calls f cs)
       end;
       [reflexivity | eexists; split; reflexivity].
  reflexivity.
Qed.

Lemma figure_to_rgb_run (resolution n : Z) (fg : figure)
  (fs : list (Z * figure)) (con : list written) :
  fresh n fs ->
  figure_to_rgb resolution n {| open_figs := (n, fg) :: fs; console := con |} =
  match rgb_of_figure resolution fg with
  | Ok f => (Ok f, {| open_figs := fs; console := con |})
  | Raise e => (Raise e, {| open_figs := (n, fg) :: fs; console := con |})
  end.
Proof.
  intros Hf. unfold figure_to_rgb, rgb_of_figure.
  unfold bind at 1. rewrite plt_savefig_head.
  destruct (mpl_savefig fg png_args) as [buf|e]; [|reflexivity].
  rewrite bind_lift. cbn [bindR].
  destruct (pil_open buf) as [im|e]; [|reflexivity].
  rewrite bind_lift. cbn [bindR].
  destruct (pil_resize im (resolution, resolution)) as [im'|e]; [|reflexivity].
  unfold bind at 1. rewrite plt_close_head by assumption. reflexivity.
Qed.

Lemma render_frame_ok (audio_data : ndarray1) (sample_rate : Z)
  (waveform_type : string) (resolution : Z) (waveform_color : string)
  (t : float) (w : world) (f : ndarray) :
  rendered audio_data sample_rate waveform_type resolution waveform_color t
    = Ok f ->
  render_frame audio_data sample_rate waveform_type resolution waveform_color
    t w = (Ok f, w).
Proof.
  unfold rendered, render_frame. rewrite bind_lift.
  destruct (audio_window audio_data sample_rate t) as [seg|e]; [|discriminate].
  cbn [bindR].
  pose proof (draw_waveform_run waveform_type resolution waveform_color seg w) as Hd.
  destruct (drawn_figure waveform_type resolution waveform_color seg) as [fg|e];
    [|discriminate].
  cbn [bindR]. intros Hrgb. unfold bind. rewrite Hd.
  rewrite figure_to_rgb_run by apply next_num_fresh.
  rewrite Hrgb. destruct w; reflexivity.
Qed.

Lemma render_frame_raise (audio_data : ndarray1) (sample_rate : Z)
  (waveform_type : string) (resolution : Z) (waveform_color : string)
  (t : float) (w : world) (e : exn) :
  rendered audio_data sample_rate waveform_type resolution waveform_color t
    = Raise e ->
  exists w',
    render_frame audio_data sample_rate waveform_type resolution
      waveform_color t w = (Raise e, w') /\
    console w' = console w.
Proof.
  unfold rendered, render_frame. rewrite bind_lift.
  destruct (audio_window audio_data sample_rate t) as [seg|e0].
  2:{ cbn [bindR]. intros H; inversion H; subst. eexists. split; reflexivity. }
  cbn [bindR].
  pose proof (draw_waveform_run waveform_type resolution waveform_color seg w) as Hd.
  destruct (drawn_figure waveform_type resolution waveform_color seg) as [fg|e0].
  2:{ cbn [bindR]. intros H; inversion H; subst.
      destruct Hd as [w' [Hd Hc]]. exists w'. unfold bind. rewrite Hd. auto. }
  cbn [bindR]. intros Hrgb. unfold bind. rewrite Hd.
  rewrite figure_to_rgb_run by apply next_num_fresh.
  rewrite Hrgb. eexists. split; reflexivity.
Qed.

(** The frame [render_frame] returns or the exception it raises is that of
    [rendered], whatever the world. *)
Lemma render_frame_fst (audio_data : ndarray1) (sample_rate : Z)
  (waveform_type : string) (resolution : Z) (waveform_color : string)
  (t : float) (w : world) :
  fst (render_frame audio_data sample_rate waveform_type resolution
         waveform_color t w) =
  rendered audio_data sample_rate waveform_type resolution waveform_color t.
Proof.
  destruct (rendered audio_data sample_rate waveform_type resolution
              waveform_color t) as [f|e] eqn:E.
  - rewrite (render_frame_ok _ _ _ _ _ _ w f E). reflexivity.
  - destruct (render_frame_raise _ _ _ _ _ _ w e E) as [w' [H _]].
    rewrite H. reflexivity.
Qed.

End RenderFacts.

(* ===================================================================== *)
(** * Facts about the frame array *)
(* ===================================================================== *)

Lemma length_zrange (n : Z) : length (zrange n) = Z.to_nat n.
Proof. unfold zrange. rewrite length_map, length_seq. reflexivity. Qed.

Lemma length_flat_map_const {A B : Type} (f : A -> list B) (k : nat)
  (xs : list A) :
  (forall x, length (f x) = k) ->
  length (flat_map f xs) = (k * length xs)%nat.
Proof.
  intros Hf. induction xs as [|x xs IH]; simpl.
  - lia.
  - rewrite length_app, Hf, IH. lia.
Qed.

Lemma apply_calls_ok {R : Rendering} (cs : list plt_call) :
  forall fg fg', apply_calls fg cs = Ok fg' ->
  calls fg' = calls fg ++ cs /\ figsize fg' = figsize fg /\ dpi fg' = dpi fg.
Proof.
  induction cs as [|c cs IH]; intros fg fg' H; cbn [apply_calls] in H.
  - inversion H; subst. rewrite app_nil_r. auto.
  - destruct (mpl_call_check fg c); [discriminate|].
    destruct (IH _ _ H) as [Hc [Hs Hd]].
    rewrite Hc, Hs, Hd. cbn [add_call calls figsize dpi].
    rewrite <- app_assoc. auto.
Qed.

Section FrameFacts.

Context {R : Rendering}.

Lemma pil_resize_size (im im' : image) (w h : Z) :
  pil_resize im (w, h) = Ok im' -> im_size im' = (w, h).
Proof.
  unfold pil_resize.
  destruct ((w =? fst (im_size im)) && (h =? snd (im_size im))) eqn:Esame.
  - intros H; inversion H; subst.
    apply andb_true_iff in Esame. destruct Esame as [Hw Hh].
    apply Z.eqb_eq in Hw. apply Z.eqb_eq in Hh.
    destruct (im_size im'); simpl in *; congruence.
  - destruct ((w <? 1) || (h <? 1)); [discriminate|].
    intros H; inversion H; reflexivity.
Qed.

Lemma rgb_array_shape (im : image) :
  shape (np_array_of_image (pil_convert_RGB im)) =
    [snd (im_size im); fst (im_size im); 3] /\
  length (data (np_array_of_image (pil_convert_RGB im))) =
    (3 * Z.to_nat (fst (im_size im)) * Z.to_nat (snd (im_size im)))%nat.
Proof.
  unfold np_array_of_image, pil_convert_RGB. cbn [im_size im_mode getpixel].
  destruct (im_size im) as [w h]. cbn [shape data fst snd].
  split; [reflexivity|].
  rewrite (length_flat_map_const _ (3 * Z.to_nat w)%nat).
  - rewrite length_zrange. lia.
  - intros y. rewrite (length_flat_map_const _ 3%nat).
    + rewrite length_zrange. lia.
    + intros x. destruct (pil_rgb (im_mode im) (getpixel im x y)) as [[r g] b].
      reflexivity.
Qed.

Lemma rgb_of_figure_shape (resolution : Z) (fg : figure) (f : ndarray) :
  0 <= resolution ->
  rgb_of_figure resolution fg = Ok f ->
  shape f = [resolution; resolution; 3] /\
  Z.of_nat (length (data f)) = resolution * resolution * 3.
Proof.
  intros Hres. unfold rgb_of_figure.
  destruct (mpl_savefig fg png_args) as [buf|e]; [|discriminate].
  cbn [bindR]. destruct (pil_open buf) as [im|e]; [|discriminate].
  cbn [bindR].
  destruct (pil_resize im (resolution, resolution)) as [im'|e] eqn:Er;
    [|discriminate].
  cbn [bindR]. intros H; inversion H; subst.
  apply pil_resize_size in Er.
  destruct (rgb_array_shape im') as [Hs Hl]. rewrite Hs, Hl, Er.
  cbn [fst snd]. split; [reflexivity|].
  rewrite !Nat2Z.inj_mul, !Z2Nat.id by lia. simpl Z.of_nat. ring.
Qed.

Lemma rendered_shape (audio_data : ndarray1) (sample_rate : Z)
  (waveform_type : string) (resolution : Z) (waveform_color : string)
  (t : float) (f : ndarray) :
  0 <= resolution ->
  rendered audio_data sample_rate waveform_type resolution waveform_color t
    = Ok f ->
  shape f = [resolution; resolution; 3] /\
  Z.of_nat (length (data f)) = resolution * resolution * 3.
Proof.
  intros Hres. unfold rendered.
  destruct (audio_window audio_data sample_rate t) as [seg|e]; [|discriminate].
  cbn [bindR].
  destruct (drawn_figure waveform_type resolution waveform_color seg)
    as [fg|e]; [|discriminate].
  cbn [bindR]. apply rgb_of_figure_shape. assumption.
Qed.

Lemma np_zeros_frame (resolution : Z) :
  0 <= resolution ->
  np_zeros [resolution; resolution; 3] =
    Ok {| shape := [resolution; resolution; 3];
          data := repeat x00 (Z.to_nat (resolution * resolution * 3)) |}.
Proof.
  intros Hres. unfold np_zeros. cbn [existsb].
  destruct (Z.ltb_spec resolution 0); [lia|]. cbn [orb].
  change (3 <? 0) with false. cbn [orb].
  unfold shape_size. cbn [fold_right].
  replace (resolution * (resolution * (3 * 1))) with (resolution * resolution * 3)
    by ring.
  reflexivity.
Qed.

Lemma blank_frame_run (resolution : Z) (t : float) (e : exn) (w : world) :
  0 <= resolution ->
  blank_frame resolution t e w =
  (Ok {| shape := [resolution; resolution; 3];
         data := repeat x00 (Z.to_nat (resolution * resolution * 3)) |},
   {| open_figs := open_figs w;
      console := console w ++
        [Print [Lit "Error in make_frame at t="; FFloat t EmptyString; Lit ": ";
                FExn e]] |}).
Proof.
  intros Hres. unfold blank_frame, bind, print, lift.
  rewrite np_zeros_frame by assumption. reflexivity.
Qed.


End FrameFacts.

(* ===================================================================== *)
(** * Facts about signs *)
(* ===================================================================== *)

Lemma of_Z_pos_sign (p : positive) (s : bool) (m : positive) (e : Z) :
  F64.of_Z (Zpos p) = S754_finite s m e -> s = false.
Proof.
  unfold F64.of_Z, binary_normalize, binary_round.
  destruct (shl_align p 0 _) as [mz ez]. apply round_aux_sign.
Qed.

Lemma py_int_nonneg (x : float) (c : Z) :
  (forall s m e, x = S754_finite s m e -> s = false) ->
  py_int x = Ok c -> 0 <= c.
Proof.
  intros Hs. destruct x as [s|s| |s m e]; try discriminate; simpl; intros H;
    inversion H; subst; [lia|].
  rewrite (Hs s m e eq_refl). simpl.
  apply Z.shiftl_nonneg. lia.
Qed.

Lemma window_size_nonneg (sample_rate ws : Z) :
  0 < sample_rate -> window_size sample_rate = Ok ws -> 0 <= ws.
Proof.
  intros Hpos. unfold window_size, int_mul_float, float_of_int.
  destruct (F64.is_finite (F64.of_Z sample_rate)); [|discriminate].
  cbn [bindR]. apply py_int_nonneg.
  intros s m e Hmul.
  destruct (mul_sign _ _ _ _ _ Hmul) as [sx [mx [ex [sy [my [ey [Hx [Hy Hs]]]]]]]].
  destruct sample_rate as [|p|p]; try lia.
  apply of_Z_pos_sign in Hx. unfold F64.half in Hy. inversion Hy; subst.
  reflexivity.
Qed.

Lemma print_run (line : list frag) (w w' : world) (u : unit) :
  print line w = (Ok u, w') ->
  w' = {| open_figs := open_figs w; console := console w ++ [Print line] |}.
Proof. unfold print. intros H; inversion H; reflexivity. Qed.

(* ===================================================================== *)
(** * The Audio Windower *)
(* ===================================================================== *)

(** C1, as the code has it: whenever the product [t * sample_rate] is a
    finite float, the centre index is [int(t * sample_rate)], the product
    truncated toward zero: its floor when the product is non-negative, its
    ceiling when it is negative. *)
Theorem center_idx_truncates (sample_rate : Z) (t p : float) :
  float_mul_int t sample_rate = Ok p ->
  F64.is_finite p = true ->
  exists c, center_idx sample_rate t = Ok c /\ is_trunc c (F64.to_Q p).
Proof.
  intros Hp Hfin. unfold center_idx. rewrite Hp. cbn [bindR].
  apply py_int_finite. assumption.
Qed.

Lemma center_idx_truncates_witness :
  float_mul_int Demo.t_0_375 22050 =
    Ok (S754_finite false 4545793386086400 (-39)) /\
  exists c, center_idx 22050 Demo.t_0_375 = Ok c /\
            is_trunc c (F64.to_Q (S754_finite false 4545793386086400 (-39))).
Proof.
  split; [reflexivity|].
  apply (center_idx_truncates 22050 Demo.t_0_375); reflexivity.
Defined.

(** C1 as stated fails: at [t = 0.375] and 22050 Hz the product is 8268.75;
    the code takes index 8268 where [round] gives 8269. *)
Lemma center_idx_not_rounded :
  center_idx 22050 Demo.t_0_375 = Ok 8268 /\
  center_idx_spec 22050 Demo.t_0_375 = Ok 8269 /\
  center_idx 22050 Demo.t_0_375 <> center_idx_spec 22050 Demo.t_0_375.
Proof.
  split; [reflexivity|]. split; [reflexivity|]. discriminate.
Qed.

(** C3: for a positive sample rate, whenever the centre index [c] and the
    window length [ws] are computed, the bounds are
    [start = max(0, c - ws // 2)] and [end = min(len, start + ws)]; they
    stay inside the signal, the start is 0 as soon as
    [t * sample_rate < ws / 2], and the end is the signal length as soon as
    [start + ws] exceeds it.  Below [2^53] the window length is
    [sample_rate // 2], half a second of samples. *)
Theorem window_bounds_clamped (audio_data : ndarray1) (sample_rate : Z)
  (t : float) (c ws : Z) :
  0 < sample_rate ->
  center_idx sample_rate t = Ok c ->
  window_size sample_rate = Ok ws ->
  exists start_idx end_idx,
    window_bounds audio_data sample_rate t = Ok (start_idx, end_idx) /\
    start_idx = Z.max 0 (c - ws / 2) /\
    end_idx = Z.min (np_len audio_data) (start_idx + ws) /\
    0 <= start_idx /\ end_idx <= np_len audio_data /\
    (forall p, float_mul_int t sample_rate = Ok p ->
       (F64.to_Q p < inject_Z ws / 2)%Q -> start_idx = 0) /\
    (np_len audio_data < start_idx + ws -> end_idx = np_len audio_data) /\
    (sample_rate < 2 ^ 53 -> ws = sample_rate / 2).
Proof.
  intros Hsr Hc Hws.
  pose proof (window_size_nonneg sample_rate ws Hsr Hws) as Hws0.
  exists (Z.max 0 (c - ws / 2)),
         (Z.min (np_len audio_data) (Z.max 0 (c - ws / 2) + ws)).
  split; [apply window_bounds_eq; assumption|].
  split; [reflexivity|]. split; [reflexivity|].
  split; [lia|]. split; [lia|]. split; [|split; [lia|]].
  - intros p Hp Hlt.
    assert (Hpi : py_int p = Ok c).
    { unfold center_idx in Hc. rewrite Hp in Hc. exact Hc. }
    assert (Hfin : F64.is_finite p = true).
    { destruct p; try discriminate; reflexivity. }
    destruct (py_int_finite p Hfin) as [c' [Hc' Htr]].
    rewrite Hpi in Hc'. inversion Hc'; subst c'.
    assert (Hle : c <= ws / 2).
    { destruct Htr as [Hpos Hneg].
      destruct (Qlt_le_dec (F64.to_Q p) 0) as [Hq|Hq].
      - destruct (Hneg (Qlt_le_weak _ _ Hq)) as [Hlo _].
        assert (c <= 0).
        { assert (Hc0 : (inject_Z c - 1 < 0)%Q)
            by (eapply Qlt_trans; eassumption).
          unfold Qlt, Qminus, Qplus, Qopp, inject_Z in Hc0; simpl in Hc0.
          lia. }
        assert (0 <= ws / 2) by (apply Z.div_pos; lia). lia.
      - destruct (Hpos Hq) as [Hlo _].
        assert (Hcw : (inject_Z c < inject_Z ws / 2)%Q)
          by (eapply Qle_lt_trans; eassumption).
        assert (2 * c < ws).
        { unfold Qlt, Qdiv, Qmult, Qinv, inject_Z in Hcw; simpl in Hcw. lia. }
        apply Z.div_le_lower_bound; lia. }
    lia.
  - intros Hlt.
    assert (Hok : sample_rate_ok sample_rate) by (split; assumption).
    rewrite (window_size_exact sample_rate Hok) in Hws.
    inversion Hws. reflexivity.
Qed.

Lemma window_bounds_clamped_witness :
  0 < 4 /\ center_idx 4 Demo.t_1 = Ok 4 /\ window_size 4 = Ok 2 /\
  exists start_idx end_idx,
    window_bounds Demo.ramp 4 Demo.t_1 = Ok (start_idx, end_idx) /\
    start_idx = Z.max 0 (4 - 2 / 2) /\
    end_idx = Z.min (np_len Demo.ramp) (start_idx + 2) /\
    0 <= start_idx /\ end_idx <= np_len Demo.ramp /\
    (forall p, float_mul_int Demo.t_1 4 = Ok p ->
       (F64.to_Q p < inject_Z 2 / 2)%Q -> start_idx = 0) /\
    (np_len Demo.ramp < start_idx + 2 -> end_idx = np_len Demo.ramp) /\
    (4 < 2 ^ 53 -> 2 = 4 / 2).
Proof.
  split; [lia|]. split; [reflexivity|]. split; [reflexivity|].
  apply (window_bounds_clamped Demo.ramp 4 Demo.t_1 4 2);
    [lia | reflexivity | reflexivity].
Defined.

Lemma window_zero_start (audio_data : ndarray1) (sample_rate : Z) (t : float)
  (c : Z) :
  sample_rate_ok sample_rate ->
  center_idx sample_rate t = Ok c -> c <= 0 ->
  window_bounds audio_data sample_rate t =
    Ok (0, Z.min (np_len audio_data) (sample_rate / 2)).
Proof.
  intros Hsr Hc Hc0.
  rewrite (window_bounds_eq audio_data sample_rate t c (sample_rate / 2) Hc
             (window_size_exact sample_rate Hsr)).
  assert (0 <= sample_rate / 2 / 2).
  { destruct Hsr. apply Z.div_pos; [apply Z.div_pos|]; lia. }
  rewrite Z.max_l by lia. reflexivity.
Qed.

(** C2, as the code has it, for a sample rate in [(0, 2^53)]: the windower
    returns (does not raise) for every [t] in [[0, duration]], the duration
    being at most [2^63] seconds; for a [t] so far beyond the signal that the
    window would start at or after the last sample (any such [t] up to
    [2^63] s) it returns the two-zero placeholder; for a negative [t] (down
    to [-2^63] s) it returns too, with the start clamped to 0: what it
    returns for [t = 0], namely the leading samples
    [audio_data[0:min(len, window_size)]], sample for sample, when the
    signal has at least 2 samples and the rate is at least 4 Hz, and the
    placeholder only when those leading samples are fewer than 2. *)
Theorem audio_window_total (audio_data : ndarray1) (sample_rate : Z) :
  sample_rate_ok sample_rate ->
  (forall t duration,
     duration_ok duration = true -> in_range t duration = true ->
     exists seg,
       audio_window audio_data sample_rate t = Ok seg /\ 2 <= np_len seg) /\
  (forall t,
     in_range t max_duration = true ->
     exists c,
       center_idx sample_rate t = Ok c /\
       (np_len audio_data - 1 + sample_rate / 2 / 2 <= c ->
        audio_window audio_data sample_rate t = Ok placeholder)) /\
  (forall t,
     before_start t = true ->
     window_bounds audio_data sample_rate t =
       Ok (0, Z.min (np_len audio_data) (sample_rate / 2)) /\
     audio_window audio_data sample_rate t =
       audio_window audio_data sample_rate F64.zero /\
     audio_window audio_data sample_rate t =
       Ok (if Z.min (np_len audio_data) (sample_rate / 2) <? 2
           then placeholder
           else np_slice audio_data 0
                  (Z.min (np_len audio_data) (sample_rate / 2))) /\
     (2 <= np_len audio_data -> 4 <= sample_rate ->
      audio_window audio_data sample_rate t =
        Ok (np_slice audio_data 0
              (Z.min (np_len audio_data) (sample_rate / 2))) /\
      np_len (np_slice audio_data 0
                (Z.min (np_len audio_data) (sample_rate / 2))) =
        Z.min (np_len audio_data) (sample_rate / 2) /\
      2 <= Z.min (np_len audio_data) (sample_rate / 2) /\
      forall i, 0 <= i < Z.min (np_len audio_data) (sample_rate / 2) ->
        np_get (np_slice audio_data 0
                  (Z.min (np_len audio_data) (sample_rate / 2))) i =
          np_get audio_data i /\
        np_get audio_data i <> None)).
Proof.
  intros Hsr. pose proof (window_size_exact sample_rate Hsr) as Hws.
  split; [|split].
  - intros t duration Hd Ht.
    destruct (center_idx_in_range sample_rate t duration Hsr Hd Ht)
      as [c [Hc _]].
    pose proof (window_bounds_eq audio_data _ _ _ _ Hc Hws) as Hb.
    rewrite (audio_window_eq _ _ _ _ _ Hb).
    eexists. split; [reflexivity|].
    assert (Hws0 : 0 <= sample_rate / 2).
    { destruct Hsr. apply Z.div_pos; lia. }
    destruct (Z.ltb_spec
      (Z.min (np_len audio_data)
             (Z.max 0 (c - sample_rate / 2 / 2) + sample_rate / 2)
       - Z.max 0 (c - sample_rate / 2 / 2)) 2) as [Hlt|Hge].
    + change (np_len placeholder) with 2. lia.
    + rewrite np_slice_len by lia. lia.
  - intros t Ht.
    destruct (center_idx_in_range sample_rate t max_duration Hsr eq_refl Ht)
      as [c [Hc _]].
    exists c. split; [exact Hc|]. intros Hfar.
    rewrite (audio_window_eq _ _ _ _ _
               (window_bounds_eq audio_data _ _ _ _ Hc Hws)).
    destruct (Z.ltb_spec
      (Z.min (np_len audio_data)
             (Z.max 0 (c - sample_rate / 2 / 2) + sample_rate / 2)
       - Z.max 0 (c - sample_rate / 2 / 2)) 2); [reflexivity|lia].
  - intros t Ht.
    destruct (center_idx_before_start sample_rate t Hsr Ht) as [c [Hc Hc0]].
    pose proof (window_zero_start audio_data sample_rate t c Hsr Hc Hc0) as Hb.
    pose proof (window_zero_start audio_data sample_rate F64.zero 0 Hsr
                  (center_idx_zero sample_rate false Hsr) (Z.le_refl 0)) as Hb0.
    set (m := Z.min (np_len audio_data) (sample_rate / 2)) in *.
    assert (Hval : audio_window audio_data sample_rate t =
                   Ok (if m <? 2 then placeholder
                       else np_slice audio_data 0 m)).
    { rewrite (audio_window_eq _ _ _ _ _ Hb). rewrite Z.sub_0_r. reflexivity. }
    split; [exact Hb|]. split; [|split; [exact Hval|]].
    + rewrite (audio_window_eq _ _ _ _ _ Hb), (audio_window_eq _ _ _ _ _ Hb0).
      reflexivity.
    + intros Hlen Hrate.
      assert (Hhalf : 2 <= sample_rate / 2)
        by (apply Z.div_le_lower_bound; lia).
      assert (Hm : 2 <= m <= np_len audio_data) by (unfold m; lia).
      split; [|split; [|split]].
      * rewrite Hval. destruct (Z.ltb_spec m 2); [lia|reflexivity].
      * rewrite np_slice_len by lia. lia.
      * lia.
      * intros i Hi. split.
        -- rewrite np_slice_get by lia. reflexivity.
        -- apply np_get_in_bounds. lia.
Qed.

Lemma audio_window_total_witness :
  sample_rate_ok 4 /\
  (exists seg, audio_window Demo.ramp 4 Demo.t_1 = Ok seg /\ 2 <= np_len seg) /\
  audio_window Demo.ramp 4 Demo.t_100 = Ok placeholder /\
  audio_window Demo.ramp 4 Demo.t_minus_1 = audio_window Demo.ramp 4 F64.zero /\
  audio_window Demo.ramp 4 Demo.t_minus_1 =
    Ok (np_slice Demo.ramp 0 (Z.min (np_len Demo.ramp) (4 / 2))) /\
  forall i, 0 <= i < Z.min (np_len Demo.ramp) (4 / 2) ->
    np_get (np_slice Demo.ramp 0 (Z.min (np_len Demo.ramp) (4 / 2))) i =
      np_get Demo.ramp i /\
    np_get Demo.ramp i <> None.
Proof.
  assert (Hsr : sample_rate_ok 4) by (split; reflexivity).
  destruct (audio_window_total Demo.ramp 4 Hsr) as [Hin [Hfar Hneg]].
  split; [exact Hsr|]. split; [|split; [|split; [|split]]].
  - apply (Hin Demo.t_1 Demo.two_seconds); reflexivity.
  - destruct (Hfar Demo.t_100 eq_refl) as [c [Hc Hp]].
    assert (Hc400 : c = 400).
    { assert (H : center_idx 4 Demo.t_100 = Ok 400) by reflexivity.
      rewrite H in Hc. inversion Hc. reflexivity. }
    subst c. apply Hp. vm_compute. discriminate.
  - destruct (Hneg Demo.t_minus_1 eq_refl) as [_ [Hsame _]]. exact Hsame.
  - destruct (Hneg Demo.t_minus_1 eq_refl) as [_ [_ [_ Hlead]]].
    assert (H8 : 2 <= np_len Demo.ramp) by (vm_compute; discriminate).
    destruct (Hlead H8 ltac:(lia)) as [Ha _]. exact Ha.
  - destruct (Hneg Demo.t_minus_1 eq_refl) as [_ [_ [_ Hlead]]].
    assert (H8 : 2 <= np_len Demo.ramp) by (vm_compute; discriminate).
    destruct (Hlead H8 ltac:(lia)) as [_ [_ [_ Hi]]]. exact Hi.
Defined.

(** C2 as stated fails for negative timestamps: at [t = -1.0], 4 Hz, the
    windower returns the first two samples of the signal, not the
    placeholder. *)
Lemma negative_timestamp_not_placeholder :
  before_start Demo.t_minus_1 = true /\
  audio_window Demo.ramp 4 Demo.t_minus_1 =
    Ok (FloatArray [F64.of_Z 1; F64.of_Z 2]) /\
  audio_window Demo.ramp 4 Demo.t_minus_1 <> Ok placeholder.
Proof.
  split; [reflexivity|]. split; [reflexivity|]. discriminate.
Qed.

(** A finite timestamp whose product with the sample rate overflows makes
    [int] raise inside the windower. *)
Example audio_window_overflow :
  audio_window Demo.ramp 4 (S754_finite false 4503599627370496 971) =
    Raise (OverflowError "cannot convert float infinity to integer").
Proof. reflexivity. Qed.

(** C4, as the code has it, for a sample rate in [(0, 2^53)] and a duration
    of at most [2^63] seconds: for every [t] in [[0, duration]] and every
    signal, the windower returns a segment of at least 2 and at most
    [max(2, window_length)] samples, the placeholder whenever the selected
    slice has fewer than 2 samples and the slice itself otherwise. *)
Theorem audio_window_length (audio_data : ndarray1) (sample_rate : Z)
  (t duration : float) :
  sample_rate_ok sample_rate ->
  duration_ok duration = true ->
  in_range t duration = true ->
  exists start_idx end_idx seg,
    window_size sample_rate = Ok (sample_rate / 2) /\
    window_bounds audio_data sample_rate t = Ok (start_idx, end_idx) /\
    audio_window audio_data sample_rate t = Ok seg /\
    2 <= np_len seg <= Z.max 2 (sample_rate / 2) /\
    (end_idx - start_idx < 2 -> seg = placeholder) /\
    (2 <= end_idx - start_idx -> seg = np_slice audio_data start_idx end_idx).
Proof.
  intros Hsr Hd Ht. pose proof (window_size_exact sample_rate Hsr) as Hws.
  destruct (center_idx_in_range sample_rate t duration Hsr Hd Ht)
    as [c [Hc Hc0]].
  pose proof (window_bounds_eq audio_data _ _ _ _ Hc Hws) as Hb.
  set (ws := sample_rate / 2) in *.
  assert (Hws0 : 0 <= ws).
  { unfold ws. destruct Hsr. apply Z.div_pos; lia. }
  set (s := Z.max 0 (c - ws / 2)) in *.
  set (e := Z.min (np_len audio_data) (s + ws)) in *.
  exists s, e. eexists.
  split; [exact Hws|]. split; [exact Hb|].
  split; [apply (audio_window_eq _ _ _ _ _ Hb)|].
  destruct (Z.ltb_spec (e - s) 2) as [Hlt|Hge].
  - split; [|split].
    + change (np_len placeholder) with 2. lia.
    + reflexivity.
    + lia.
  - split; [|split].
    + rewrite np_slice_len by (unfold e, s in *; lia). unfold e, s in *. lia.
    + lia.
    + reflexivity.
Qed.

Lemma audio_window_length_witness :
  sample_rate_ok 4 /\ duration_ok Demo.two_seconds = true /\
  in_range Demo.t_1 Demo.two_seconds = true /\
  exists start_idx end_idx seg,
    window_size 4 = Ok (4 / 2) /\
    window_bounds Demo.ramp 4 Demo.t_1 = Ok (start_idx, end_idx) /\
    audio_window Demo.ramp 4 Demo.t_1 = Ok seg /\
    2 <= np_len seg <= Z.max 2 (4 / 2) /\
    (end_idx - start_idx < 2 -> seg = placeholder) /\
    (2 <= end_idx - start_idx -> seg = np_slice Demo.ramp start_idx end_idx).
Proof.
  assert (Hsr : sample_rate_ok 4) by (split; reflexivity).
  split; [exact Hsr|]. split; [reflexivity|]. split; [reflexivity|].
  apply (audio_window_length Demo.ramp 4 Demo.t_1 Demo.two_seconds Hsr);
    reflexivity.
Defined.

(** C4 as stated fails below 4 Hz: at 2 Hz the window length is 1, and at
    [t = 0] the windower returns the placeholder, whose 2 samples exceed
    it. *)
Lemma placeholder_longer_than_window :
  sample_rate_ok 2 /\ in_range F64.zero Demo.two_seconds = true /\
  window_size 2 = Ok 1 /\
  audio_window Demo.ramp 2 F64.zero = Ok placeholder /\
  ~ (np_len placeholder <= 1).
Proof.
  split; [split; reflexivity|]. split; [reflexivity|]. split; [reflexivity|].
  split; [reflexivity|]. vm_compute. intros H. apply H. reflexivity.
Qed.

(** C10: whenever the selected slice has at least 2 samples, the windower
    returns exactly [audio_data[start:end]]: [end - start] samples, the
    [i]-th being sample [start + i] of the signal. *)
Theorem audio_window_is_slice (audio_data : ndarray1) (sample_rate : Z)
  (t : float) (start_idx end_idx : Z) :
  window_bounds audio_data sample_rate t = Ok (start_idx, end_idx) ->
  2 <= end_idx - start_idx ->
  audio_window audio_data sample_rate t =
    Ok (np_slice audio_data start_idx end_idx) /\
  np_len (np_slice audio_data start_idx end_idx) = end_idx - start_idx /\
  0 <= start_idx /\ end_idx <= np_len audio_data /\
  forall i, 0 <= i < end_idx - start_idx ->
    np_get (np_slice audio_data start_idx end_idx) i =
      np_get audio_data (start_idx + i) /\
    np_get audio_data (start_idx + i) <> None.
Proof.
  intros Hb Hlen.
  destruct (window_bounds_inv _ _ _ _ _ Hb) as [c [ws [_ [_ [Hs He]]]]].
  assert (H0 : 0 <= start_idx) by lia.
  assert (H1 : end_idx <= np_len audio_data) by lia.
  split; [|split; [|split; [|split]]]; try assumption.
  - rewrite (audio_window_eq _ _ _ _ _ Hb).
    destruct (Z.ltb_spec (end_idx - start_idx) 2); [lia|reflexivity].
  - apply np_slice_len; lia.
  - intros i Hi. split.
    + apply np_slice_get; lia.
    + apply np_get_in_bounds. lia.
Qed.

Lemma audio_window_is_slice_witness :
  window_bounds Demo.ramp 4 Demo.t_1 = Ok (3, 5) /\ 2 <= 5 - 3 /\
  audio_window Demo.ramp 4 Demo.t_1 = Ok (np_slice Demo.ramp 3 5) /\
  np_len (np_slice Demo.ramp 3 5) = 5 - 3 /\
  0 <= 3 /\ 5 <= np_len Demo.ramp /\
  forall i, 0 <= i < 5 - 3 ->
    np_get (np_slice Demo.ramp 3 5) i = np_get Demo.ramp (3 + i) /\
    np_get Demo.ramp (3 + i) <> None.
Proof.
  split; [reflexivity|]. split; [lia|].
  apply (audio_window_is_slice Demo.ramp 4 Demo.t_1 3 5); [reflexivity|lia].
Defined.

(* ===================================================================== *)
(** * The per-frame rendering function *)
(* ===================================================================== *)

Section FrameClaims.

Context {R : Rendering}.
Variable audio_data : ndarray1.
Variable sample_rate : Z.
Variable waveform_type : string.
Variable resolution : Z.
Variable waveform_color : string.

(** C5: for a non-negative resolution, [make_frame] returns, for every
    timestamp, style, signal and world, a frame of shape
    [(resolution, resolution, 3)] holding [resolution * resolution * 3]
    bytes: the frame of the [try] body when that succeeds, the [np.zeros]
    array when it raises; any two frames of the session have the same
    shape. *)
Theorem frame_dimensions (t : float) (w : world) :
  0 <= resolution ->
  exists frame w',
    make_frame audio_data sample_rate waveform_type resolution waveform_color
      t w = (Ok frame, w') /\
    shape frame = [resolution; resolution; 3] /\
    Z.of_nat (length (data frame)) = resolution * resolution * 3 /\
    (forall f w1,
       render_frame audio_data sample_rate waveform_type resolution
         waveform_color t w = (Ok f, w1) -> frame = f) /\
    (forall e w1,
       render_frame audio_data sample_rate waveform_type resolution
         waveform_color t w = (Raise e, w1) ->
       np_zeros [resolution; resolution; 3] = Ok frame) /\
    (forall t2 w2, exists frame2 w2',
       make_frame audio_data sample_rate waveform_type resolution
         waveform_color t2 w2 = (Ok frame2, w2') /\
       shape frame2 = shape frame).
Proof.
  intros Hres.
  assert (Hall : forall t0 w0, exists frame w',
    make_frame audio_data sample_rate waveform_type resolution waveform_color
      t0 w0 = (Ok frame, w') /\
    shape frame = [resolution; resolution; 3] /\
    Z.of_nat (length (data frame)) = resolution * resolution * 3 /\
    (forall f w1,
       render_frame audio_data sample_rate waveform_type resolution
         waveform_color t0 w0 = (Ok f, w1) -> frame = f) /\
    (forall e w1,
       render_frame audio_data sample_rate waveform_type resolution
         waveform_color t0 w0 = (Raise e, w1) ->
       np_zeros [resolution; resolution; 3] = Ok frame)).
  { intros t0 w0. unfold make_frame, try_except.
    destruct (rendered audio_data sample_rate waveform_type resolution
                waveform_color t0) as [f|e] eqn:E.
    - rewrite (render_frame_ok _ _ _ _ _ _ w0 f E).
      destruct (rendered_shape _ _ _ _ _ _ _ Hres E) as [Hs Hl].
      exists f, w0. repeat split; try assumption.
      + intros f' w1 H. congruence.
      + intros e w1 H. discriminate.
    - destruct (render_frame_raise _ _ _ _ _ _ w0 e E) as [w1 [H _]].
      rewrite H. rewrite blank_frame_run by assumption.
      eexists. eexists. split; [reflexivity|].
      cbn [shape data]. split; [reflexivity|]. split.
      + rewrite repeat_length. apply Z2Nat.id.
        apply Z.mul_nonneg_nonneg; [apply Z.mul_nonneg_nonneg|]; lia.
      + split.
        * intros f' w1' H'. discriminate.
        * intros e' w1' _. apply np_zeros_frame. assumption. }
  destruct (Hall t w) as [frame [w' [Hm [Hs [Hl [Hok Hraise]]]]]].
  exists frame, w'. repeat split; try assumption.
  intros t2 w2. destruct (Hall t2 w2) as [frame2 [w2' [Hm2 [Hs2 _]]]].
  exists frame2, w2'. split; [assumption|]. congruence.
Qed.

(** C6: for a non-negative resolution, when anything inside the [try] of
    [make_frame] raises an exception [e], [make_frame] does not raise: it
    prints one line naming [t] and [e] and returns the all-zero array of
    shape [(resolution, resolution, 3)]. *)
Theorem frame_error_fallback (t : float) (w : world) (e : exn) (w1 : world) :
  0 <= resolution ->
  render_frame audio_data sample_rate waveform_type resolution waveform_color
    t w = (Raise e, w1) ->
  exists frame,
    make_frame audio_data sample_rate waveform_type resolution waveform_color
      t w =
      (Ok frame,
       {| open_figs := open_figs w1;
          console := console w1 ++
            [Print [Lit "Error in make_frame at t="; FFloat t EmptyString; Lit ": ";
                    FExn e]] |}) /\
    shape frame = [resolution; resolution; 3] /\
    Z.of_nat (length (data frame)) = resolution * resolution * 3 /\
    Forall (fun b => b = x00) (data frame).
Proof.
  intros Hres Hr. unfold make_frame, try_except. rewrite Hr.
  rewrite blank_frame_run by assumption.
  eexists. split; [reflexivity|]. cbn [shape data].
  split; [reflexivity|]. split.
  - rewrite repeat_length. apply Z2Nat.id.
    apply Z.mul_nonneg_nonneg; [apply Z.mul_nonneg_nonneg|]; lia.
  - apply Forall_forall. intros b Hb. apply repeat_spec in Hb. exact Hb.
Qed.

(** C8: for each of the styles [simple], [mirror] and [line] and every
    sample window, the figure that [draw_waveform] leaves current, the one
    [savefig] then rasterises, has its y-limits set by the last call on it to
    the constants [(-0.8, 0.8)], whatever the samples. *)
Theorem ylim_fixed (audio_segment : ndarray1) (w : world) (fig : Z)
  (w' : world) :
  waveform_type = "simple"%string \/ waveform_type = "mirror"%string \/
  waveform_type = "line"%string ->
  draw_waveform waveform_type resolution waveform_color audio_segment w
    = (Ok fig, w') ->
  exists fg,
    open_figs w' = (fig, fg) :: open_figs w /\
    ylim_of fg = Some (ylim_bottom, ylim_top) /\
    plt_savefig png_args w' = (mpl_savefig fg png_args, w') /\
    ylim_top = F64.div (F64.of_Z 4) (F64.of_Z 5) /\
    ylim_bottom = F64.neg ylim_top.
Proof.
  intros Hstyle Hd.
  pose proof (draw_waveform_run waveform_type resolution waveform_color
                audio_segment w) as Hrun.
  destruct (drawn_figure waveform_type resolution waveform_color
              audio_segment) as [fg|e] eqn:Efg.
  2:{ destruct Hrun as [w0 [Hr _]]. congruence. }
  rewrite Hrun in Hd. inversion Hd; subst fig w'. clear Hd.
  exists fg. cbn [open_figs]. split; [reflexivity|].
  split; [|split; [apply plt_savefig_head | split; reflexivity]].
  unfold drawn_figure in Efg.
  destruct (mpl_figure_check _ _); [discriminate|].
  apply apply_calls_ok in Efg. destruct Efg as [Hc _].
  unfold ylim_of. rewrite Hc. cbn [calls app].
  unfold style_calls.
  destruct Hstyle as [H|[H|H]]; rewrite H; reflexivity.
Qed.


End FrameClaims.

Lemma frame_dimensions_witness :
  0 <= 16 /\
  exists frame w',
    make_frame (R := Demo.rendering) Demo.ramp 4 "mirror" 16 "#FF4500"
      Demo.t_1 Demo.empty_world = (Ok frame, w') /\
    shape frame = [16; 16; 3] /\
    Z.of_nat (length (data frame)) = 16 * 16 * 3.
Proof.
  split; [lia|].
  destruct (frame_dimensions (R := Demo.rendering) Demo.ramp 4 "mirror" 16
              "#FF4500" Demo.t_1 Demo.empty_world ltac:(lia))
    as [frame [w' [Hm [Hs [Hl _]]]]].
  exists frame, w'. auto.
Defined.

Lemma frame_error_fallback_witness :
  0 <= 16 /\
  fst (render_frame (R := Demo.rendering) Demo.ramp 4 "mirror" 16 "notacolor"
         Demo.t_1 Demo.empty_world) =
    Raise (ValueError "Invalid RGBA argument") /\
  exists frame,
    make_frame (R := Demo.rendering) Demo.ramp 4 "mirror" 16 "notacolor"
      Demo.t_1 Demo.empty_world =
      (Ok frame,
       {| open_figs :=
            [(1, mk_figure (F64.of_Z 8, F64.of_Z 8) 2
                   [Axis "off"; Patch_set_alpha 0])];
          console :=
            [Print [Lit "Error in make_frame at t="; FFloat Demo.t_1 EmptyString;
                    Lit ": "; FExn (ValueError "Invalid RGBA argument")]]
       |}) /\
    shape frame = [16; 16; 3] /\
    Z.of_nat (length (data frame)) = 16 * 16 * 3 /\
    Forall (fun b => b = x00) (data frame).
Proof.
  split; [lia|]. split; [reflexivity|].
  apply (frame_error_fallback (R := Demo.rendering) Demo.ramp 4 "mirror" 16
           "notacolor" Demo.t_1 Demo.empty_world
           (ValueError "Invalid RGBA argument")
           {| open_figs :=
                [(1, mk_figure (F64.of_Z 8, F64.of_Z 8) 2
                       [Axis "off"; Patch_set_alpha 0])];
              console := [] |}); [lia | reflexivity].
Defined.

(** A timestamp that is not a number fails in the windower already; the
    handler answers it the same way. *)
Example nan_timestamp_black_frame :
  make_frame (R := Demo.rendering) Demo.ramp 4 "mirror" 2 "#FF4500"
    Demo.t_nan Demo.empty_world =
  (Ok {| shape := [2; 2; 3]; data := repeat x00 12 |},
   {| open_figs := [];
      console :=
        [Print [Lit "Error in make_frame at t="; FFloat Demo.t_nan EmptyString;
                Lit ": ";
                FExn (ValueError "cannot convert float NaN to integer")]] |}).
Proof. reflexivity. Qed.



Lemma ylim_fixed_witness :
  exists fg,
    open_figs (snd (draw_waveform (R := Demo.rendering) "line" 16 "#FF4500"
                      placeholder Demo.empty_world)) = [(1, fg)] /\
    ylim_of fg = Some (ylim_bottom, ylim_top).
Proof.
  destruct (ylim_fixed (R := Demo.rendering) "line" 16 "#FF4500" placeholder
              Demo.empty_world 1
              (snd (draw_waveform (R := Demo.rendering) "line" 16 "#FF4500"
                      placeholder Demo.empty_world)))
    as [fg [Hf [Hy _]]].
  - right. right. reflexivity.
  - reflexivity.
  - exists fg. split; assumption.
Defined.

(* ===================================================================== *)
(** * The command *)
(* ===================================================================== *)

Section CommandClaims.

Context {R : Rendering} {Md : Media}.
Variables audio_file image_file waveform resolution waveform_color
  output : string.

Lemma render_video_ok (start_time : float) (w w1 : world) (b : bool) :
  render_video audio_file image_file waveform resolution waveform_color
    output start_time w = (Ok b, w1) ->
  b = true /\
  exists w_enc u,
    console w1 = console w_enc ++
      [Print [Lit "Video successfully created at "; FStr output];
       Print [Lit "Total processing time: ";
              FFloat (F64.sub (clock
                {| open_figs := open_figs w_enc;
                   console := console w_enc ++
                     [Print [Lit "Video successfully created at ";
                             FStr output]] |}) start_time) ".2f";
              Lit " seconds"]] /\
    exists clip w_pre,
      write_videofile clip output 30 "libx264" "aac" 4 w_pre = (Ok u, w_enc).
Proof.
  unfold render_video. intros H.
  apply bind_ok in H. destruct H as [res [w2 [_ H]]].
  apply bind_ok in H. destruct H as [[audio_data sr] [w3 [_ H]]].
  repeat (apply bind_ok in H;
          let a := fresh "a" in let wn := fresh "wn" in
          let Hs := fresh "Hs" in
          destruct H as [a [wn [Hs H]]]).
  unfold ret in H. inversion H; subst. split; [reflexivity|].
  match goal with
  | Hw : write_videofile ?c _ _ _ _ _ ?wp = (Ok ?u, ?we) |- _ =>
      exists we, u
  end.
  repeat match goal with
  | Hp : print _ _ = (Ok _, _) |- _ => apply print_run in Hp
  | Ht : time_time _ = (Ok _, _) |- _ =>
      unfold time_time in Ht; inversion Ht; clear Ht
  end.
  subst. cbn [console open_figs]. split.
  - rewrite <- app_assoc. reflexivity.
  - eexists. eexists. eassumption.
Qed.

(** The outcome of the function: after the banner is printed and the clock
    read, it returns [False] when the [try] body (loading, decoding,
    composing, encoding) raises an exception [e], having printed
    ["Error creating video: e"] and the traceback of [e] last; otherwise it
    returns [True], the last two lines printed being the completion message
    and the elapsed time, which is the clock read after the completion
    message minus the clock read after the banner. *)
Lemma command_outcome (w : world) :
  let w0 := {| open_figs := open_figs w;
               console := console w ++
                 banner audio_file image_file waveform resolution
                   waveform_color output |} in
  match render_video audio_file image_file waveform resolution
          waveform_color output (clock w0) w0 with
  | (Raise e, w1) =>
      create_waveform_video audio_file image_file waveform resolution
        waveform_color output w =
      (Ok false,
       {| open_figs := open_figs w1;
          console := console w1 ++
            [Print [Lit "Error creating video: "; FExn e]; Traceback e] |})
  | (Ok b, w1) =>
      create_waveform_video audio_file image_file waveform resolution
        waveform_color output w = (Ok true, w1) /\
      exists w_enc,
        console w1 = console w_enc ++
          [Print [Lit "Video successfully created at "; FStr output];
           Print [Lit "Total processing time: ";
                  FFloat
                    (F64.sub
                       (clock
                          {| open_figs := open_figs w_enc;
                             console := console w_enc ++
                               [Print [Lit "Video successfully created at ";
                                       FStr output]] |})
                       (clock w0)) ".2f";
                  Lit " seconds"]]
  end.
Proof.
  intros w0.
  assert (Hpre : create_waveform_video audio_file image_file waveform
                   resolution waveform_color output w =
                 try_except
                   (render_video audio_file image_file waveform resolution
                      waveform_color output (clock w0))
                   report_failure w0).
  { unfold create_waveform_video, bind at 1 2 3 4 5 6 7, print, time_time.
    cbn [open_figs console]. unfold w0, banner.
    repeat rewrite <- app_assoc. reflexivity. }
  rewrite Hpre. unfold try_except.
  destruct (render_video audio_file image_file waveform resolution
              waveform_color output (clock w0) w0) as [[b|e] w1] eqn:E.
  - destruct (render_video_ok _ _ _ _ E) as [Hb [w_enc [u [Hc _]]]].
    subst b. split; [reflexivity|]. exists w_enc. exact Hc.
  - unfold report_failure, bind, print, print_exc, ret.
    cbn [open_figs console]. rewrite <- app_assoc. reflexivity.
Qed.

(** Whatever the function returns, the process ends with status 0. *)
Lemma click_main_exits_zero (w : world) :
  fst (click_main audio_file image_file waveform resolution waveform_color
         output w) = 0 /\
  exists b,
    fst (create_waveform_video audio_file image_file waveform resolution
           waveform_color output w) = Ok b.
Proof.
  pose proof (command_outcome w) as H. cbv zeta in H.
  unfold click_main.
  destruct (render_video _ _ _ _ _ _ _ _) as [[b|e] w1].
  - destruct H as [H _]. rewrite H. split; [reflexivity|].
    exists true. reflexivity.
  - rewrite H. split; [reflexivity|]. exists false. reflexivity.
Qed.

End CommandClaims.

Example command_succeeds :
  fst (create_waveform_video (R := Demo.rendering) (Md := Demo.media)
         "a.wav" "b.png" "mirror" "480" "#FF4500" "output.mp4"
         Demo.empty_world) = Ok true.
Proof. reflexivity. Qed.

(** C7, where the code departs from it: with an audio file librosa cannot
    decode, the function prints the error and the traceback and returns
    [False], as claimed; but the command, run through click, then ends with
    exit status 0, the status of a successful run: the termination does not
    indicate the failure. *)
Theorem failed_run_exits_zero :
  click_main (R := Demo.rendering) (Md := Demo.media_no_audio)
    "a.wav" "b.png" "mirror" "480" "#FF4500" "output.mp4" Demo.empty_world =
  (0,
   {| open_figs := [];
      console :=
        banner "a.wav" "b.png" "mirror" "480" "#FF4500" "output.mp4" ++
        [Print [Lit "Loading audio with librosa..."];
         Print [Lit "Error creating video: ";
                FExn (Exception "NoBackendError" "no backend")];
         Traceback (Exception "NoBackendError" "no backend")] |}) /\
  fst (create_waveform_video (R := Demo.rendering)
         (Md := Demo.media_no_audio)
         "a.wav" "b.png" "mirror" "480" "#FF4500" "output.mp4"
         Demo.empty_world) = Ok false /\
  fst (click_main (R := Demo.rendering) (Md := Demo.media)
         "a.wav" "b.png" "mirror" "480" "#FF4500" "output.mp4"
         Demo.empty_world) = 0 /\
  fst (create_waveform_video (R := Demo.rendering) (Md := Demo.media)
         "a.wav" "b.png" "mirror" "480" "#FF4500" "output.mp4"
         Demo.empty_world) = Ok true.
Proof. repeat split; reflexivity. Qed.

Example command_fails_on_load :
  create_waveform_video (R := Demo.rendering) (Md := Demo.media_no_audio)
    "a.wav" "b.png" "mirror" "480" "#FF4500" "output.mp4" Demo.empty_world =
  (Ok false,
   {| open_figs := [];
      console :=
        banner "a.wav" "b.png" "mirror" "480" "#FF4500" "output.mp4" ++
        [Print [Lit "Loading audio with librosa..."];
         Print [Lit "Error creating video: ";
                FExn (Exception "NoBackendError" "no backend")];
         Traceback (Exception "NoBackendError" "no backend")] |}).
Proof. reflexivity. Qed.

(* ===================================================================== *)
(** * Further facts: exact products, the figure registry *)
(* ===================================================================== *)

(** Rounding a mantissa whose low [n] bits are zero and whose remaining 53
    bits fit the format is exact. *)
Lemma round_aux_exact (s : bool) (M m : positive) (e : Z) (n : positive) :
  Zpos M = Zpos m * 2 ^ Zpos n ->
  Zpos (digits2_pos m) = 53 ->
  -1074 <= e + Zpos n <= 971 ->
  binary_round_aux 53 1024 s (Zpos M) e loc_Exact =
    S754_finite s m (e + Zpos n).
Proof.
  intros HM Hd He.
  assert (Hdig : Zpos (digits2_pos M) = 53 + Zpos n).
  { rewrite digits2_log2, HM. rewrite Z.log2_mul_pow2 by lia.
    rewrite digits2_log2 in Hd. lia. }
  unfold binary_round_aux, shr_fexp.
  simpl Zdigits2. rewrite Hdig. rewrite fexp_eq.
  replace (Z.max (53 + Zpos n + e - 53) (-1074) - e) with (Zpos n) by lia.
  simpl shr_record_of_loc. unfold shr at 1. rewrite HM.
  rewrite (iter_pos_shr_1_exact n (Zpos m)) by lia.
  cbv beta iota zeta. simpl shr_m. simpl loc_of_shr_record.
  simpl round_nearest_even. simpl Zdigits2. rewrite Hd. rewrite fexp_eq.
  replace (Z.max (53 + (e + Zpos n) - 53) (-1074) - (e + Zpos n)) with 0 by lia.
  simpl shr. cbv beta iota zeta. simpl shr_m.
  assert (Hle : (e + Zpos n <=? 1024 - 53) = true) by (apply Z.leb_le; lia).
  rewrite Hle. reflexivity.
Qed.

Lemma center_idx_of_product (k sr : positive) :
  Zpos k * Zpos sr < 2 ^ 53 ->
  center_idx (Zpos sr) (F64.of_Z (Zpos k)) = Ok (Zpos k * Zpos sr).
Proof.
  intros Hlt.
  assert (Hk : Zpos k < 2 ^ 53) by nia.
  assert (Hs : Zpos sr < 2 ^ 53) by nia.
  pose proof (digits2_le_53 k Hk) as Hdk.
  pose proof (digits2_le_53 sr Hs) as Hds.
  assert (HP : Zpos (k * sr) < 2 ^ 53) by (rewrite Pos2Z.inj_mul; exact Hlt).
  pose proof (digits2_le_53 (k * sr) HP) as HdP.
  destruct (of_Z_shape k Hdk) as [mk [Hofk [Hdmk Hvk]]].
  destruct (of_Z_shape sr Hds) as [ms [Hofs [Hdms Hvs]]].
  destruct (of_Z_shape (k * sr) HdP) as [mp [_ [Hdmp Hvp]]].
  pose proof (digits2_mul k sr) as [Hlo Hhi].
  set (dk := Zpos (digits2_pos k)) in *.
  set (ds := Zpos (digits2_pos sr)) in *.
  set (dP := Zpos (digits2_pos (k * sr))) in *.
  unfold center_idx, float_mul_int, float_of_int.
  rewrite Hofs. cbn [F64.is_finite bindR]. rewrite Hofk.
  unfold F64.mul, F64.prec, F64.emax, SFmul. cbn [xorb].
  assert (Hn : 0 < 53 + dP - dk - ds) by lia.
  destruct (53 + dP - dk - ds) as [|n|n] eqn:En; try lia.
  rewrite (round_aux_exact false (mk * ms) mp (dk - 53 + (ds - 53)) n).
  - cbn [py_int cond_Zopp]. f_equal.
    replace (dk - 53 + (ds - 53) + Zpos n) with (dP - 53) by lia.
    rewrite Hvp, Pos2Z.inj_mul.
    rewrite <- Z.shiftr_opp_r. rewrite Z.shiftr_div_pow2 by lia.
    replace (- (dP - 53)) with (53 - dP) by lia.
    apply Z.div_mul. apply Z.pow_nonzero; lia.
  - rewrite Pos2Z.inj_mul, Hvk, Hvs, Hvp, Pos2Z.inj_mul.
    replace (Zpos n) with ((53 - dk) + (53 - ds) - (53 - dP)) by lia.
    assert (Hsplit : 2 ^ (53 - dk) * 2 ^ (53 - ds) =
                     2 ^ (53 - dP) * 2 ^ (53 - dk + (53 - ds) - (53 - dP))).
    { rewrite <- !Z.pow_add_r by lia. f_equal. lia. }
    nia.
  - assumption.
  - lia.
Qed.

Section FigureFacts.

Context {R : Rendering}.

(** Once [plt.figure] has accepted its parameters, [draw_waveform] ends with
    the new figure current, whether it returns or raises. *)
Lemma draw_waveform_figs (waveform_type : string) (resolution : Z)
  (waveform_color : string) (seg : ndarray1) (w : world) :
  mpl_figure_check (F64.of_Z 8, F64.of_Z 8) (resolution / 8) = None ->
  exists fg,
    figsize fg = (F64.of_Z 8, F64.of_Z 8) /\ dpi fg = resolution / 8 /\
    (draw_waveform waveform_type resolution waveform_color seg w =
       (Ok (next_num (open_figs w)),
        {| open_figs := (next_num (open_figs w), fg) :: open_figs w;
           console := console w |}) \/
     exists e,
       draw_waveform waveform_type resolution waveform_color seg w =
         (Raise e,
          {| open_figs := (next_num (open_figs w), fg) :: open_figs w;
             console := console w |})).
Proof.
  intros Hcheck. pose proof (next_num_fresh (open_figs w)) as Hf.
  unfold draw_waveform. rewrite bind_plt_figure, Hcheck.
  rewrite bind_plt_do by assumption.
  destruct (mpl_call_check _ (Axis "off")).
  { eexists. split; [|split; [|right; eexists; reflexivity]]; reflexivity. }
  rewrite bind_fig_call by assumption.
  destruct (mpl_call_check _ (Patch_set_alpha 0)).
  { eexists. split; [|split; [|right; eexists; reflexivity]]; reflexivity. }
  destruct (waveform_type =? "simple")%string;
    [|destruct (waveform_type =? "mirror")%string;
      [|destruct (waveform_type =? "line")%string]].
  1-3: rewrite bind_assoc; rewrite bind_plt_do by assumption;
       match goal with
       | |- context [mpl_call_check ?f ?c] => destruct (mpl_call_check f c)
       end;
       [eexists; split; [|split; [|right; eexists; reflexivity]]; reflexivity|];
       rewrite bind_plt_do by assumption;
       match goal with
       | |- context [mpl_call_check ?f ?c] => destruct (mpl_call_check f c)
       end;
       [eexists; split; [|split; [|right; eexists; reflexivity]]; reflexivity
       |eexists; split; [|split; [|left; reflexivity]]; reflexivity].
  eexists. split; [|split; [|left; reflexivity]]; reflexivity.
Qed.

Lemma render_frame_cases (audio_data : ndarray1) (sample_rate : Z)
  (waveform_type : string) (resolution : Z) (waveform_color : string)
  (t : float) (w : world) :
  match audio_window audio_data sample_rate t with
  | Raise e =>
      render_frame audio_data sample_rate waveform_type resolution
        waveform_color t w = (Raise e, w)
  | Ok seg =>
      match mpl_figure_check (F64.of_Z 8, F64.of_Z 8) (resolution / 8) with
      | Some e =>
          render_frame audio_data sample_rate waveform_type resolution
            waveform_color t w = (Raise e, w)
      | None =>
          (exists f,
             render_frame audio_data sample_rate waveform_type resolution
               waveform_color t w = (Ok f, w)) \/
          (exists e fg,
             render_frame audio_data sample_rate waveform_type resolution
               waveform_color t w =
               (Raise e,
                {| open_figs := (next_num (open_figs w), fg) :: open_figs w;
                   console := console w |}) /\
             figsize fg = (F64.of_Z 8, F64.of_Z 8) /\ dpi fg = resolution / 8)
      end
  end.
Proof.
  unfold render_frame. rewrite bind_lift.
  destruct (audio_window audio_data sample_rate t) as [seg|e]; [|reflexivity].
  destruct (mpl_figure_check (F64.of_Z 8, F64.of_Z 8) (resolution / 8))
    as [e|] eqn:Hcheck.
  { unfold bind, draw_waveform. rewrite bind_plt_figure, Hcheck. reflexivity. }
  destruct (draw_waveform_figs waveform_type resolution waveform_color seg w
              Hcheck) as [fg [Hs [Hd [Hok|[e Hraise]]]]].
  - unfold bind. rewrite Hok.
    rewrite figure_to_rgb_run by apply next_num_fresh.
    destruct (rgb_of_figure resolution fg) as [f|e].
    + left. exists f. destruct w; reflexivity.
    + right. exists e, fg. auto.
  - right. exists e, fg. unfold bind. rewrite Hraise. auto.
Qed.

End FigureFacts.

(* ===================================================================== *)
(** * Further properties of the windower *)
(* ===================================================================== *)

(** X1: a signal of fewer than 2 samples (an empty one included) yields the
    two-zero placeholder at every timestamp of the range. *)
Theorem audio_window_short_signal (audio_data : ndarray1) (sample_rate : Z)
  (t duration : float) :
  sample_rate_ok sample_rate ->
  duration_ok duration = true ->
  in_range t duration = true ->
  np_len audio_data < 2 ->
  audio_window audio_data sample_rate t = Ok placeholder.
Proof.
  intros Hsr Hd Ht Hlen.
  destruct (center_idx_in_range sample_rate t duration Hsr Hd Ht)
    as [c [Hc _]].
  rewrite (audio_window_eq _ _ _ _ _
             (window_bounds_eq audio_data _ _ _ _ Hc
                (window_size_exact sample_rate Hsr))).
  destruct (Z.ltb_spec
    (Z.min (np_len audio_data)
           (Z.max 0 (c - sample_rate / 2 / 2) + sample_rate / 2)
     - Z.max 0 (c - sample_rate / 2 / 2)) 2); [reflexivity|lia].
Qed.

Lemma audio_window_short_signal_witness :
  audio_window one_sample 44100 Demo.t_1 = Ok placeholder.
Proof.
  apply (audio_window_short_signal one_sample 44100 Demo.t_1 Demo.two_seconds);
    [split; reflexivity | reflexivity | reflexivity | reflexivity].
Defined.

(** X2: when the window lies inside the signal ([ws // 2 <= c] and
    [c - ws // 2 + ws <= len], [ws >= 2]) the windower returns exactly [ws]
    samples starting at [c - ws // 2], and the sample at the centre index
    [c] sits at position [ws // 2] of the window. *)
Theorem full_window_inside (audio_data : ndarray1) (sample_rate : Z)
  (t : float) (c ws : Z) :
  center_idx sample_rate t = Ok c ->
  window_size sample_rate = Ok ws ->
  2 <= ws ->
  ws / 2 <= c ->
  c - ws / 2 + ws <= np_len audio_data ->
  audio_window audio_data sample_rate t =
    Ok (np_slice audio_data (c - ws / 2) (c - ws / 2 + ws)) /\
  np_len (np_slice audio_data (c - ws / 2) (c - ws / 2 + ws)) = ws /\
  np_get (np_slice audio_data (c - ws / 2) (c - ws / 2 + ws)) (ws / 2) =
    np_get audio_data c /\
  np_get audio_data c <> None.
Proof.
  intros Hc Hws Hws2 Hlo Hhi.
  pose proof (window_bounds_eq audio_data _ _ _ _ Hc Hws) as Hb.
  rewrite Z.max_r in Hb by lia. rewrite Z.min_r in Hb by lia.
  assert (Hhalf : 0 <= ws / 2 < ws).
  { split; [apply Z.div_pos; lia | apply Z.div_lt; lia]. }
  split; [|split; [|split]].
  - rewrite (audio_window_eq _ _ _ _ _ Hb).
    destruct (Z.ltb_spec (c - ws / 2 + ws - (c - ws / 2)) 2);
      [lia|reflexivity].
  - rewrite np_slice_len by lia. lia.
  - rewrite np_slice_get by lia. f_equal. lia.
  - apply np_get_in_bounds. lia.
Qed.

Lemma full_window_inside_witness :
  audio_window Demo.ramp 4 Demo.t_1 = Ok (np_slice Demo.ramp 3 5) /\
  np_len (np_slice Demo.ramp 3 5) = 2 /\
  np_get (np_slice Demo.ramp 3 5) 1 = np_get Demo.ramp 4 /\
  np_get Demo.ramp 4 <> None.
Proof.
  apply (full_window_inside Demo.ramp 4 Demo.t_1 4 2);
    [reflexivity | reflexivity | lia | vm_compute; discriminate
    | vm_compute; discriminate].
Defined.

(** X3: all timestamps whose centre index is at most [ws // 2] select the
    same window, the one that starts at sample 0: over the first quarter of
    a second the displayed window does not move. *)
Theorem leading_frames_share_window (audio_data : ndarray1) (sample_rate : Z)
  (t1 t2 : float) (c1 c2 ws : Z) :
  0 < sample_rate ->
  window_size sample_rate = Ok ws ->
  center_idx sample_rate t1 = Ok c1 ->
  center_idx sample_rate t2 = Ok c2 ->
  c1 <= ws / 2 -> c2 <= ws / 2 ->
  window_bounds audio_data sample_rate t1 =
    Ok (0, Z.min (np_len audio_data) ws) /\
  audio_window audio_data sample_rate t1 =
    audio_window audio_data sample_rate t2.
Proof.
  intros Hsr Hws Hc1 Hc2 H1 H2.
  pose proof (window_size_nonneg sample_rate ws Hsr Hws) as Hws0.
  pose proof (window_bounds_eq audio_data _ _ _ _ Hc1 Hws) as Hb1.
  pose proof (window_bounds_eq audio_data _ _ _ _ Hc2 Hws) as Hb2.
  rewrite Z.max_l in Hb1 by lia. rewrite Z.max_l in Hb2 by lia.
  cbn [Z.add] in Hb1, Hb2.
  split; [exact Hb1|].
  rewrite (audio_window_eq _ _ _ _ _ Hb1), (audio_window_eq _ _ _ _ _ Hb2).
  reflexivity.
Qed.

Lemma leading_frames_share_window_witness :
  window_bounds Demo.ramp 8 F64.zero = Ok (0, Z.min (np_len Demo.ramp) 4) /\
  audio_window Demo.ramp 8 F64.zero = audio_window Demo.ramp 8 t_0_25.
Proof.
  apply (leading_frames_share_window Demo.ramp 8 F64.zero t_0_25 0 2 4);
    [lia | reflexivity | reflexivity | reflexivity
    | vm_compute; discriminate | vm_compute; discriminate].
Defined.

(** X4: the window never moves backwards: a larger centre index gives a
    start and an end that are at least as large. *)
Theorem window_moves_forward (audio_data : ndarray1) (sample_rate : Z)
  (t1 t2 : float) (c1 c2 s1 e1 s2 e2 : Z) :
  center_idx sample_rate t1 = Ok c1 ->
  center_idx sample_rate t2 = Ok c2 ->
  c1 <= c2 ->
  window_bounds audio_data sample_rate t1 = Ok (s1, e1) ->
  window_bounds audio_data sample_rate t2 = Ok (s2, e2) ->
  s1 <= s2 /\ e1 <= e2.
Proof.
  intros Hc1 Hc2 Hle Hb1 Hb2.
  destruct (window_bounds_inv _ _ _ _ _ Hb1) as [c1' [ws1 [Hc1' [Hw1 [Hs1 He1]]]]].
  destruct (window_bounds_inv _ _ _ _ _ Hb2) as [c2' [ws2 [Hc2' [Hw2 [Hs2 He2]]]]].
  rewrite Hc1 in Hc1'. rewrite Hc2 in Hc2'. rewrite Hw1 in Hw2.
  inversion Hc1'; inversion Hc2'; inversion Hw2; subst. lia.
Qed.

Lemma window_moves_forward_witness :
  window_bounds Demo.ramp 4 F64.zero = Ok (0, 2) /\
  window_bounds Demo.ramp 4 Demo.t_1 = Ok (3, 5) /\
  0 <= 3 /\ 2 <= 5.
Proof.
  split; [reflexivity|]. split; [reflexivity|].
  apply (window_moves_forward Demo.ramp 4 F64.zero Demo.t_1 0 4 0 2 3 5);
    [reflexivity | reflexivity | lia | reflexivity | reflexivity].
Defined.

(** X5: at a whole number of seconds [k] the centre index is exactly
    [k * sample_rate], as long as that product is below [2^53]: the float
    product is exact there. *)
Theorem center_idx_whole_seconds (sample_rate k : Z) :
  sample_rate_ok sample_rate ->
  0 <= k ->
  k * sample_rate < 2 ^ 53 ->
  center_idx sample_rate (F64.of_Z k) = Ok (k * sample_rate).
Proof.
  intros Hsr Hk Hlt. destruct Hsr as [Hpos Hsr].
  destruct sample_rate as [|sr|sr]; try lia.
  destruct k as [|k|k]; try lia.
  - apply (center_idx_zero (Zpos sr) false). split; assumption.
  - apply center_idx_of_product. exact Hlt.
Qed.

Lemma center_idx_whole_seconds_witness :
  center_idx 44100 (F64.of_Z 3) = Ok (3 * 44100).
Proof.
  apply (center_idx_whole_seconds 44100 3);
    [split; reflexivity | lia | reflexivity].
Defined.

(** X13: near the end of the signal, when the window starts inside it but
    would run past it, the windower returns the samples from the start
    index to the last one: fewer than [ws], ending with the last sample of
    the signal. *)
Theorem trailing_window_shrinks (audio_data : ndarray1) (sample_rate : Z)
  (t : float) (c ws : Z) :
  center_idx sample_rate t = Ok c ->
  window_size sample_rate = Ok ws ->
  ws / 2 <= c ->
  np_len audio_data < c - ws / 2 + ws ->
  2 <= np_len audio_data - (c - ws / 2) ->
  audio_window audio_data sample_rate t =
    Ok (np_slice audio_data (c - ws / 2) (np_len audio_data)) /\
  np_len (np_slice audio_data (c - ws / 2) (np_len audio_data)) =
    np_len audio_data - (c - ws / 2) /\
  np_len (np_slice audio_data (c - ws / 2) (np_len audio_data)) < ws /\
  np_get (np_slice audio_data (c - ws / 2) (np_len audio_data))
         (np_len audio_data - (c - ws / 2) - 1) =
    np_get audio_data (np_len audio_data - 1).
Proof.
  intros Hc Hws Hlo Hpast Hlen.
  pose proof (window_bounds_eq audio_data _ _ _ _ Hc Hws) as Hb.
  rewrite Z.max_r in Hb by lia. rewrite Z.min_l in Hb by lia.
  split; [|split; [|split]].
  - rewrite (audio_window_eq _ _ _ _ _ Hb).
    destruct (Z.ltb_spec (np_len audio_data - (c - ws / 2)) 2);
      [lia|reflexivity].
  - apply np_slice_len; lia.
  - rewrite np_slice_len by lia. lia.
  - rewrite np_slice_get by lia. f_equal. lia.
Qed.

Lemma trailing_window_shrinks_witness :
  audio_window Demo.ramp 8 Demo.t_1 = Ok (np_slice Demo.ramp 6 8) /\
  np_len (np_slice Demo.ramp 6 8) = 2 /\
  np_len (np_slice Demo.ramp 6 8) < 4 /\
  np_get (np_slice Demo.ramp 6 8) 1 = np_get Demo.ramp 7.
Proof.
  apply (trailing_window_shrinks Demo.ramp 8 Demo.t_1 8 4);
    [reflexivity | reflexivity | vm_compute; discriminate | reflexivity
    | vm_compute; discriminate].
Defined.


(* ===================================================================== *)
(** * Further properties of the frame function *)
(* ===================================================================== *)

Lemma length_set_last {A : Type} (xs : list A) (v : A) :
  length (set_last xs v) = length xs.
Proof.
  induction xs as [|x xs IH]; [reflexivity|].
  destruct xs as [|y ys]; [reflexivity|].
  change (set_last (x :: y :: ys) v) with (x :: set_last (y :: ys) v).
  cbn [length]. rewrite IH. reflexivity.
Qed.

Lemma length_np_linspace (start stop : float) (num : Z) :
  length (np_linspace start stop num) = Z.to_nat num.
Proof.
  unfold np_linspace.
  destruct (1 <? num); [rewrite length_set_last|];
    rewrite length_map;
    destruct (0 <? num - 1); try destruct (F64.eqb _ F64.zero);
    rewrite !length_map, length_seq; reflexivity.
Qed.

Lemma np_len_negative (a : ndarray1) : np_len (np_negative a) = np_len a.
Proof. destruct a; simpl; rewrite length_map; reflexivity. Qed.

Lemma np_get_negative (a : ndarray1) (i : Z) :
  np_get (np_negative a) i = option_map neg_sample (np_get a i).
Proof.
  unfold np_get. destruct (i <? 0); [reflexivity|].
  destruct a as [xs|xs]; cbn [np_negative]; rewrite nth_error_map;
    destruct (nth_error xs (Z.to_nat i)); reflexivity.
Qed.

Section FrameExtras.

Context {R : Rendering}.
Variable audio_data : ndarray1.
Variable sample_rate : Z.
Variable waveform_type : string.
Variable resolution : Z.
Variable waveform_color : string.

(** X6: a frame whose [try] body succeeds leaves the world as it found it:
    the figure it opened is closed again, no other figure is touched and
    nothing is printed. *)
Theorem successful_frame_restores_world (t : float) (w : world) (f : ndarray)
  (w' : world) :
  render_frame audio_data sample_rate waveform_type resolution waveform_color
    t w = (Ok f, w') ->
  w' = w /\
  make_frame audio_data sample_rate waveform_type resolution waveform_color
    t w = (Ok f, w).
Proof.
  intros H.
  pose proof (render_frame_fst audio_data sample_rate waveform_type resolution
                waveform_color t w) as Hfst.
  rewrite H in Hfst. cbn [fst] in Hfst. symmetry in Hfst.
  pose proof (render_frame_ok _ _ _ _ _ _ w f Hfst) as Hok.
  rewrite H in Hok. inversion Hok; subst w'.
  split; [reflexivity|].
  unfold make_frame, try_except. rewrite H. reflexivity.
Qed.

(** X7: [make_frame] never closes or changes a figure that was open before
    the call and leaves at most one new figure open; it prints nothing or
    exactly one error line. *)
Theorem make_frame_keeps_figures (t : float) (w : world) :
  (open_figs (snd (make_frame audio_data sample_rate waveform_type resolution
                     waveform_color t w)) = open_figs w \/
   exists fg,
     open_figs (snd (make_frame audio_data sample_rate waveform_type
                       resolution waveform_color t w)) =
       (next_num (open_figs w), fg) :: open_figs w) /\
  (console (snd (make_frame audio_data sample_rate waveform_type resolution
                   waveform_color t w)) = console w \/
   exists e,
     console (snd (make_frame audio_data sample_rate waveform_type resolution
                     waveform_color t w)) =
       console w ++
       [Print [Lit "Error in make_frame at t="; FFloat t EmptyString;
               Lit ": "; FExn e]]).
Proof.
  pose proof (render_frame_cases audio_data sample_rate waveform_type
                resolution waveform_color t w) as Hc.
  unfold make_frame, try_except, blank_frame, bind, print, lift.
  destruct (audio_window audio_data sample_rate t) as [seg|e0].
  2:{ rewrite Hc. cbn [snd open_figs console].
      destruct (np_zeros [resolution; resolution; 3]); cbn [snd open_figs console];
        (split; [left; reflexivity | right; eexists; reflexivity]). }
  destruct (mpl_figure_check (F64.of_Z 8, F64.of_Z 8) (resolution / 8)) as [e0|].
  { rewrite Hc. cbn [snd open_figs console].
    destruct (np_zeros [resolution; resolution; 3]); cbn [snd open_figs console];
      (split; [left; reflexivity | right; eexists; reflexivity]). }
  destruct Hc as [[f Hok]|[e [fg [Hr _]]]].
  - rewrite Hok. cbn [snd]. split; left; reflexivity.
  - rewrite Hr. cbn [snd open_figs console].
    destruct (np_zeros [resolution; resolution; 3]); cbn [snd open_figs console];
      (split; [right; eexists; reflexivity | right; eexists; reflexivity]).
Qed.

(** X8: when the [try] body raises after [plt.figure] has succeeded, the
    figure is not closed: it stays in the registry, current, after
    [make_frame] has returned its black frame. *)
Theorem failed_frame_leaks_figure (t : float) (w : world) (seg : ndarray1)
  (e : exn) (w1 : world) :
  audio_window audio_data sample_rate t = Ok seg ->
  mpl_figure_check (F64.of_Z 8, F64.of_Z 8) (resolution / 8) = None ->
  render_frame audio_data sample_rate waveform_type resolution waveform_color
    t w = (Raise e, w1) ->
  exists fg,
    figsize fg = (F64.of_Z 8, F64.of_Z 8) /\ dpi fg = resolution / 8 /\
    open_figs w1 = (next_num (open_figs w), fg) :: open_figs w /\
    open_figs (snd (make_frame audio_data sample_rate waveform_type
                      resolution waveform_color t w)) =
      (next_num (open_figs w), fg) :: open_figs w.
Proof.
  intros Hseg Hcheck Hr.
  pose proof (render_frame_cases audio_data sample_rate waveform_type
                resolution waveform_color t w) as Hc.
  rewrite Hseg, Hcheck in Hc.
  destruct Hc as [[f Hok]|[e' [fg [Hr' [Hs Hd]]]]]; [congruence|].
  rewrite Hr in Hr'. inversion Hr'; subst e' w1.
  exists fg. split; [exact Hs|]. split; [exact Hd|]. split; [reflexivity|].
  unfold make_frame, try_except, blank_frame, bind, print, lift. rewrite Hr.
  cbn [open_figs console]. destruct (np_zeros [resolution; resolution; 3]); reflexivity.
Qed.

(** X9: a style other than [simple], [mirror] and [line] is not rejected:
    [draw_waveform] returns with a figure on which nothing is plotted and no
    y-limits are set. *)
Theorem unknown_style_draws_nothing (audio_segment : ndarray1) (w : world)
  (fig : Z) (w' : world) :
  waveform_type <> "simple"%string ->
  waveform_type <> "mirror"%string ->
  waveform_type <> "line"%string ->
  draw_waveform waveform_type resolution waveform_color audio_segment w
    = (Ok fig, w') ->
  exists fg,
    open_figs w' = (fig, fg) :: open_figs w /\
    calls fg = [Axis "off"; Patch_set_alpha 0] /\
    ylim_of fg = None.
Proof.
  intros H1 H2 H3 Hd.
  pose proof (draw_waveform_run waveform_type resolution waveform_color
                audio_segment w) as Hrun.
  destruct (drawn_figure waveform_type resolution waveform_color
              audio_segment) as [fg|e] eqn:Efg.
  2:{ destruct Hrun as [w0 [Hr _]]. congruence. }
  rewrite Hrun in Hd. inversion Hd; subst fig w'. clear Hd.
  exists fg. cbn [open_figs]. split; [reflexivity|].
  unfold drawn_figure in Efg.
  destruct (mpl_figure_check _ _); [discriminate|].
  apply apply_calls_ok in Efg. destruct Efg as [Hc _].
  unfold style_calls in Hc.
  apply String.eqb_neq in H1, H2, H3. rewrite H1, H2, H3 in Hc.
  cbn [calls app] in Hc. unfold ylim_of. rewrite Hc. split; reflexivity.
Qed.

(** X10: for a negative resolution the handler itself raises: when the
    [try] body fails, [np.zeros] rejects the shape and [make_frame]
    propagates a [ValueError], after printing the error line. *)
Theorem negative_resolution_handler_raises (t : float) (w : world) (e : exn)
  (w1 : world) :
  resolution < 0 ->
  render_frame audio_data sample_rate waveform_type resolution waveform_color
    t w = (Raise e, w1) ->
  make_frame audio_data sample_rate waveform_type resolution waveform_color
    t w =
    (Raise (ValueError "negative dimensions are not allowed"),
     {| open_figs := open_figs w1;
        console := console w1 ++
          [Print [Lit "Error in make_frame at t="; FFloat t EmptyString;
                  Lit ": "; FExn e]] |}).
Proof.
  intros Hneg Hr.
  unfold make_frame, try_except, blank_frame, bind, print, lift. rewrite Hr.
  unfold np_zeros. cbn [existsb].
  destruct (Z.ltb_spec resolution 0); [|lia]. reflexivity.
Qed.

(** X11: in the [mirror] style the figure holds exactly four calls, the fill
    being between the segment and its negation: the two curves have the
    length of the segment, as has the x axis, and the second is the first
    negated sample by sample. *)
Theorem mirror_curves_negated (audio_segment : ndarray1) (w : world)
  (fig : Z) (w' : world) :
  draw_waveform "mirror" resolution waveform_color audio_segment w
    = (Ok fig, w') ->
  exists fg x,
    open_figs w' = (fig, fg) :: open_figs w /\
    calls fg =
      [Axis "off"; Patch_set_alpha 0;
       Fill_between x audio_segment (YArray (np_negative audio_segment))
         waveform_color;
       Ylim ylim_bottom ylim_top] /\
    Z.of_nat (length x) = np_len audio_segment /\
    np_len (np_negative audio_segment) = np_len audio_segment /\
    forall i, np_get (np_negative audio_segment) i =
              option_map neg_sample (np_get audio_segment i).
Proof.
  intros Hd.
  pose proof (draw_waveform_run "mirror" resolution waveform_color
                audio_segment w) as Hrun.
  destruct (drawn_figure "mirror" resolution waveform_color audio_segment)
    as [fg|e] eqn:Efg.
  2:{ destruct Hrun as [w0 [Hr _]]. congruence. }
  rewrite Hrun in Hd. inversion Hd; subst fig w'. clear Hd.
  exists fg. eexists. cbn [open_figs]. split; [reflexivity|].
  unfold drawn_figure in Efg.
  destruct (mpl_figure_check _ _); [discriminate|].
  apply apply_calls_ok in Efg. destruct Efg as [Hc _].
  split; [exact Hc|]. split; [|split].
  - rewrite length_np_linspace. apply Z2Nat.id.
    destruct audio_segment; simpl; lia.
  - apply np_len_negative.
  - apply np_get_negative.
Qed.

End FrameExtras.

Lemma successful_frame_restores_world_witness :
  exists f,
    render_frame (R := Demo.rendering) Demo.ramp 4 "mirror" 8 "#FF4500"
      Demo.t_1 Demo.empty_world = (Ok f, Demo.empty_world) /\
    make_frame (R := Demo.rendering) Demo.ramp 4 "mirror" 8 "#FF4500"
      Demo.t_1 Demo.empty_world = (Ok f, Demo.empty_world).
Proof.
  destruct (render_frame (R := Demo.rendering) Demo.ramp 4 "mirror" 8
              "#FF4500" Demo.t_1 Demo.empty_world) as [[f|e] w'] eqn:E.
  - destruct (successful_frame_restores_world (R := Demo.rendering) Demo.ramp
                4 "mirror" 8 "#FF4500" Demo.t_1 Demo.empty_world f w' E)
      as [Hw Hm].
    exists f. subst w'. split; [reflexivity | exact Hm].
  - exfalso. vm_compute in E. discriminate.
Defined.

Lemma failed_frame_leaks_figure_witness :
  exists fg,
    figsize fg = (F64.of_Z 8, F64.of_Z 8) /\ dpi fg = 16 / 8 /\
    open_figs (snd (make_frame (R := Demo.rendering) Demo.ramp 4 "mirror" 16
                      "notacolor" Demo.t_1 Demo.empty_world)) = [(1, fg)].
Proof.
  destruct (failed_frame_leaks_figure (R := Demo.rendering) Demo.ramp 4
              "mirror" 16 "notacolor" Demo.t_1 Demo.empty_world
              (np_slice Demo.ramp 3 5) (ValueError "Invalid RGBA argument")
              {| open_figs :=
                   [(1, mk_figure (F64.of_Z 8, F64.of_Z 8) 2
                          [Axis "off"; Patch_set_alpha 0])];
                 console := [] |})
    as [fg [Hs [Hd [_ Hm]]]]; [reflexivity | reflexivity | reflexivity|].
  exists fg. split; [exact Hs|]. split; [exact Hd|]. exact Hm.
Defined.

Lemma unknown_style_draws_nothing_witness :
  exists fg,
    open_figs (snd (draw_waveform (R := Demo.rendering) "bars" 16 "#FF4500"
                      placeholder Demo.empty_world)) = [(1, fg)] /\
    calls fg = [Axis "off"; Patch_set_alpha 0] /\
    ylim_of fg = None.
Proof.
  apply (unknown_style_draws_nothing (R := Demo.rendering) "bars" 16 "#FF4500"
           placeholder Demo.empty_world 1
           (snd (draw_waveform (R := Demo.rendering) "bars" 16 "#FF4500"
                   placeholder Demo.empty_world)));
    [discriminate | discriminate | discriminate | reflexivity].
Defined.

Lemma negative_resolution_handler_raises_witness :
  make_frame (R := Demo.rendering) Demo.ramp 4 "mirror" (-8) "#FF4500"
    Demo.t_1 Demo.empty_world =
    (Raise (ValueError "negative dimensions are not allowed"),
     {| open_figs := [];
        console :=
          [Print [Lit "Error in make_frame at t="; FFloat Demo.t_1 EmptyString;
                  Lit ": "; FExn (ValueError "dpi must be positive")]] |}).
Proof.
  apply (negative_resolution_handler_raises (R := Demo.rendering) Demo.ramp 4
           "mirror" (-8) "#FF4500" Demo.t_1 Demo.empty_world
           (ValueError "dpi must be positive") Demo.empty_world);
    [lia | reflexivity].
Defined.

Lemma mirror_curves_negated_witness :
  exists fg x,
    open_figs (snd (draw_waveform (R := Demo.rendering) "mirror" 16 "#FF4500"
                      (np_slice Demo.ramp 3 5) Demo.empty_world)) = [(1, fg)] /\
    calls fg =
      [Axis "off"; Patch_set_alpha 0;
       Fill_between x (np_slice Demo.ramp 3 5)
         (YArray (np_negative (np_slice Demo.ramp 3 5))) "#FF4500";
       Ylim ylim_bottom ylim_top] /\
    Z.of_nat (length x) = np_len (np_slice Demo.ramp 3 5).
Proof.
  destruct (mirror_curves_negated (R := Demo.rendering) 16 "#FF4500"
              (np_slice Demo.ramp 3 5) Demo.empty_world 1
              (snd (draw_waveform (R := Demo.rendering) "mirror" 16 "#FF4500"
                      (np_slice Demo.ramp 3 5) Demo.empty_world)))
    as [fg [x [Hf [Hc [Hx _]]]]]; [reflexivity|].
  exists fg, x. split; [exact Hf|]. split; [exact Hc | exact Hx].
Defined.

Section SessionExtras.

Context {R : Rendering}.
Variable audio_data : ndarray1.
Variable sample_rate : Z.
Variable waveform_type : string.
Variable resolution : Z.
Variable waveform_color : string.

Lemma after_frames_cons (t : float) (ts : list float) (w : world) :
  after_frames audio_data sample_rate waveform_type resolution waveform_color
    (t :: ts) w =
  after_frames audio_data sample_rate waveform_type resolution waveform_color
    ts (snd (make_frame audio_data sample_rate waveform_type resolution
               waveform_color t w)).
Proof. reflexivity. Qed.

(** X14: over a run of frames whose [try] body fails each time after
    [plt.figure] has succeeded, the figures pile up: every frame leaves one
    more figure open and one more error line on the console. *)
Theorem failed_frames_accumulate (ts : list float) (w : world) :
  mpl_figure_check (F64.of_Z 8, F64.of_Z 8) (resolution / 8) = None ->
  Forall (fun t =>
            raises (audio_window audio_data sample_rate t) = false /\
            forall w0,
              raises (fst (render_frame audio_data sample_rate waveform_type
                             resolution waveform_color t w0)) = true) ts ->
  length (open_figs (after_frames audio_data sample_rate waveform_type
                       resolution waveform_color ts w)) =
    (length (open_figs w) + length ts)%nat /\
  length (console (after_frames audio_data sample_rate waveform_type
                     resolution waveform_color ts w)) =
    (length (console w) + length ts)%nat.
Proof.
  intros Hcheck Hts. revert w.
  induction Hts as [|t ts [Hwin Hfail] _ IH]; intros w.
  - cbn [after_frames fold_left length]. lia.
  - rewrite after_frames_cons.
    specialize (IH (snd (make_frame audio_data sample_rate waveform_type
                           resolution waveform_color t w))).
    destruct IH as [IHf IHc]. rewrite IHf, IHc. clear IHf IHc.
    specialize (Hfail w).
    pose proof (render_frame_cases audio_data sample_rate waveform_type
                  resolution waveform_color t w) as Hc.
    destruct (audio_window audio_data sample_rate t) as [seg|e0];
      [|discriminate].
    rewrite Hcheck in Hc.
    destruct Hc as [[f Hok]|[e [fg [Hr _]]]].
    { rewrite Hok in Hfail. discriminate. }
    unfold make_frame, try_except, blank_frame, bind, print, lift. rewrite Hr.
    cbn [open_figs console].
    destruct (np_zeros [resolution; resolution; 3]);
      cbn [snd open_figs console length]; rewrite length_app;
      cbn [length]; lia.
Qed.

(** X15: over a run of frames whose [try] body succeeds each time, the
    world at the end is the world at the start: no figure is left open and
    nothing is printed. *)
Theorem successful_frames_leave_no_trace (ts : list float) (w : world) :
  Forall (fun t =>
            forall w0,
              raises (fst (render_frame audio_data sample_rate waveform_type
                             resolution waveform_color t w0)) = false) ts ->
  after_frames audio_data sample_rate waveform_type resolution waveform_color
    ts w = w.
Proof.
  intros Hts. revert w.
  induction Hts as [|t ts Hok _ IH]; intros w.
  - reflexivity.
  - rewrite after_frames_cons.
    specialize (Hok w).
    destruct (render_frame audio_data sample_rate waveform_type resolution
                waveform_color t w) as [[f|e] w'] eqn:E; [|discriminate].
    pose proof (render_frame_fst audio_data sample_rate waveform_type
                  resolution waveform_color t w) as Hfst.
    rewrite E in Hfst. cbn [fst] in Hfst. symmetry in Hfst.
    pose proof (render_frame_ok _ _ _ _ _ _ w f Hfst) as Hw.
    unfold make_frame, try_except. rewrite Hw. cbn [snd]. apply IH.
Qed.

End SessionExtras.

Lemma demo_frame_fails (t : float) (w0 : world) :
  raises (audio_window Demo.ramp 4 t) = false ->
  raises (fst (render_frame (R := Demo.rendering) Demo.ramp 4 "mirror" 16
                 "notacolor" t w0)) = true.
Proof.
  intros Hwin. rewrite render_frame_fst. unfold rendered.
  destruct (audio_window Demo.ramp 4 t) as [seg|e]; [|discriminate].
  reflexivity.
Qed.

Lemma demo_frame_succeeds (t : float) (w0 : world) :
  raises (audio_window Demo.ramp 4 t) = false ->
  raises (fst (render_frame (R := Demo.rendering) Demo.ramp 4 "mirror" 16
                 "#FF4500" t w0)) = false.
Proof.
  intros Hwin. rewrite render_frame_fst. unfold rendered.
  destruct (audio_window Demo.ramp 4 t) as [seg|e]; [|discriminate].
  reflexivity.
Qed.

Lemma failed_frames_accumulate_witness :
  length (open_figs (after_frames (R := Demo.rendering) Demo.ramp 4 "mirror"
                       16 "notacolor" [F64.zero; t_0_25; Demo.t_1]
                       Demo.empty_world)) = 3%nat /\
  length (console (after_frames (R := Demo.rendering) Demo.ramp 4 "mirror"
                     16 "notacolor" [F64.zero; t_0_25; Demo.t_1]
                     Demo.empty_world)) = 3%nat.
Proof.
  apply (failed_frames_accumulate (R := Demo.rendering) Demo.ramp 4 "mirror"
           16 "notacolor" [F64.zero; t_0_25; Demo.t_1] Demo.empty_world).
  - reflexivity.
  - repeat constructor; try reflexivity;
      intros w0; apply demo_frame_fails; reflexivity.
Defined.

Lemma successful_frames_leave_no_trace_witness :
  after_frames (R := Demo.rendering) Demo.ramp 4 "mirror" 16 "#FF4500"
    [F64.zero; t_0_25; Demo.t_1] Demo.empty_world = Demo.empty_world.
Proof.
  apply (successful_frames_leave_no_trace (R := Demo.rendering) Demo.ramp 4
           "mirror" 16 "#FF4500" [F64.zero; t_0_25; Demo.t_1]
           Demo.empty_world).
  repeat constructor; intros w0; apply demo_frame_succeeds; reflexivity.
Defined.

(* ===================================================================== *)
(** * Further properties of the command *)
(* ===================================================================== *)

Section CommandExtras.

Context {R : Rendering} {Md : Media}.
Variables audio_file image_file waveform resolution waveform_color
  output : string.

(** X12: when [librosa.load] raises, the command stops there: after the
    banner and the line announcing the load it prints the error and the
    traceback and returns [False]; the line reporting the loaded samples is
    not printed. *)
Theorem load_failure_reported (w : world) (r : Z) (e : exn) (w1 : world) :
  int_of_str resolution = Ok r ->
  librosa_load audio_file
    {| open_figs := open_figs w;
       console := console w ++
         banner audio_file image_file waveform resolution waveform_color
           output ++
         [Print [Lit "Loading audio with librosa..."]] |} = (Raise e, w1) ->
  create_waveform_video audio_file image_file waveform resolution
    waveform_color output w =
  (Ok false,
   {| open_figs := open_figs w1;
      console := console w1 ++
        [Print [Lit "Error creating video: "; FExn e]; Traceback e] |}).
Proof.
  intros Hint Hload.
  unfold banner in Hload. cbn [app] in Hload.
  unfold create_waveform_video, bind at 1 2 3 4 5 6 7, print, time_time.
  cbn [open_figs console].
  unfold try_except, render_video. rewrite bind_lift, Hint.
  unfold bind at 1. unfold get_audio_data. unfold bind at 1, print at 1.
  cbn [open_figs console]. unfold bind at 1.
  repeat rewrite <- app_assoc. cbn [app].
  rewrite Hload.
  unfold report_failure, bind, print, print_exc, ret.
  cbn [open_figs console]. rewrite <- app_assoc. reflexivity.
Qed.

End CommandExtras.

Lemma load_failure_reported_witness :
  create_waveform_video (R := Demo.rendering) (Md := Demo.media_no_audio)
    "a.wav" "b.png" "mirror" "480" "#FF4500" "output.mp4" Demo.empty_world =
  (Ok false,
   {| open_figs := [];
      console :=
        (banner "a.wav" "b.png" "mirror" "480" "#FF4500" "output.mp4" ++
         [Print [Lit "Loading audio with librosa..."]]) ++
        [Print [Lit "Error creating video: ";
                FExn (Exception "NoBackendError" "no backend")];
         Traceback (Exception "NoBackendError" "no backend")] |}).
Proof.
  apply (load_failure_reported (R := Demo.rendering)
           (Md := Demo.media_no_audio) "a.wav" "b.png" "mirror" "480"
           "#FF4500" "output.mp4" Demo.empty_world 480
           (Exception "NoBackendError" "no backend")
           {| open_figs := [];
              console :=
                banner "a.wav" "b.png" "mirror" "480" "#FF4500" "output.mp4"
                ++ [Print [Lit "Loading audio with librosa..."]] |});
    reflexivity.
Defined.
